(** * Tenantee front end: the property page and the tenant edit form

    A shallow embedding of the logic of [PropertyPage] (candidate tenants,
    current-month expense total, chart series, the add/remove tenant
    handlers) and of [EditTenantModal] (pre-population of the edit form
    from the tenant's display name), with the properties the
    specification states about them. *)

From Stdlib Require Import ZArith List String Ascii Bool Permutation Lia.
From Stdlib Require Import PrimFloat FloatOps.
Import ListNotations.

Local Open Scope Z_scope.
Local Open Scope string_scope.
Local Open Scope list_scope.

(* ================================================================= *)
(** ** Data model *)

(** [types/tenant]: a tenant as the page uses it, [id] (a number) and
    the display [name]. *)
Module Tenant.
Record t : Type := mk { id : Z; name : string }.
End Tenant.

(** Modelled from the spec: the declaration of the money type is not among
    the sources; the data model gives it as a numeric amount paired with a
    currency code.  The amount is a JavaScript number, a double. *)
Module Money.
Record t : Type := mk { amount : float; currency : string }.
End Money.

(** A JavaScript [Date] as far as the page looks at it: the local calendar
    year and month of a valid date, or the invalid date, whose getters all
    answer [NaN]. *)
Inductive JsDate : Type :=
| ValidDate (fullYear : Z) (month : Z)
| InvalidDate.

(** A JavaScript number that is an integer or [NaN]. *)
Inductive JsNum : Type :=
| Num (z : Z)
| NaN.

Definition getMonth (d : JsDate) : JsNum :=
  match d with
  | ValidDate _ m => Num m
  | InvalidDate => NaN
  end.

Definition getFullYear (d : JsDate) : JsNum :=
  match d with
  | ValidDate y _ => Num y
  | InvalidDate => NaN
  end.

(** [a === b] on numbers: [NaN] is equal to nothing. *)
Definition strict_eq (a b : JsNum) : bool :=
  match a, b with
  | Num x, Num y => Z.eqb x y
  | _, _ => false
  end.

(** An expense; [date] is the value of [new Date(expense.date)]. *)
Module Expense.
Record t : Type := mk { amount : Money.t; date : JsDate }.
End Expense.

Module Property.
Record t : Type := mk {
  id : Z;
  name : string;
  location : string;
  description : string;
  price : Money.t;
  monthly_revenue : option Money.t;
  expenses : list Expense.t;
  tenants : list Tenant.t
}.
End Property.

(* ================================================================= *)
(** ** Derived data of [PropertyPage] *)

(** [Array.prototype.includes] on an array of numbers. *)
Definition includes (xs : list Z) (x : Z) : bool :=
  existsb (fun y => Z.eqb y x) xs.

(** [tenantOptions]: the tenants that can still be added to the property.
    Both inputs are absent while their fetch has not answered. *)
Definition tenantOptions
  (tenants : option (list Tenant.t)) (property : option Property.t)
  : list Tenant.t :=
  match tenants, property with
  | Some tenants, Some property =>
      let tenantIds := map Tenant.id (Property.tenants property) in
      filter (fun tenant => negb (includes tenantIds (Tenant.id tenant)))
             tenants
  | _, _ => []
  end.

Definition revenue (property : option Property.t) : option Money.t :=
  match property with
  | None => None
  | Some property => Property.monthly_revenue property
  end.

(** The filter of [expenses]: same month and same year as the current
    date. *)
Definition in_current_month (currentDate : JsDate) (expense : Expense.t)
  : bool :=
  let expenseDate := Expense.date expense in
  strict_eq (getMonth expenseDate) (getMonth currentDate)
  && strict_eq (getFullYear expenseDate) (getFullYear currentDate).

(** [Number(x)] of a number is the number. *)
Definition Number (x : float) : float := x.

(** [expenses]: the total of the expenses of the current month, added in
    double arithmetic from 0 in the order of the collection;
    [currentDate] is the value of [new Date()] during the computation. *)
Definition expenses (currentDate : JsDate) (property : option Property.t)
  : option float :=
  match property with
  | None => None
  | Some property =>
      let expenses :=
        filter (in_current_month currentDate) (Property.expenses property) in
      Some (fold_left
              (fun acc expense =>
                 (acc + Number (Money.amount (Expense.amount expense)))%float)
              expenses 0%float)
  end.

Module ChartEntry.
Record t : Type := mk { name : string; value : float; fill : string }.
End ChartEntry.

(** [chartData]; [revenue?.amount ?? 0] and [expenses ?? 0]. *)
Definition chartData (revenue : option Money.t) (expenses : option float)
  : list ChartEntry.t :=
  [ ChartEntry.mk "Revenue"
      (match revenue with Some r => Money.amount r | None => 0 end)
      "#00B87C";
    ChartEntry.mk "Expenses"
      (match expenses with Some e => e | None => 0 end)
      "#FF5C93" ].

(** What the specification says the total is, in the arithmetic of the
    page: the amounts of the expenses with a date in the month and year of
    [now], added one after the other to [acc] in the order of the
    collection. *)
Fixpoint spec_month_total_from
  (now : JsDate) (acc : float) (es : list Expense.t) : float :=
  match es with
  | [] => acc
  | e :: es' =>
      match Expense.date e, now with
      | ValidDate y m, ValidDate y' m' =>
          if andb (Z.eqb m m') (Z.eqb y y')
          then spec_month_total_from now
                 (acc + Money.amount (Expense.amount e))%float es'
          else spec_month_total_from now acc es'
      | _, _ => spec_month_total_from now acc es'
      end
  end.

Definition spec_month_total (now : JsDate) (es : list Expense.t) : float :=
  spec_month_total_from now 0%float es.

(* ================================================================= *)
(** ** The add/remove tenant handlers *)

(** The state a handler of the page reads and writes: the data of the two
    fetches, the route parameter [id], the [selectedTenant] state, the
    [<select>] behind [selectRef] ([None] while it is not mounted, else
    its value) and the two disclosure flags. *)
Module Page.
Record t : Type := mk {
  property : option Property.t;
  id : option string;
  tenants : list Tenant.t;
  isTenantsLoading : bool;
  selectedTenant : option Tenant.t;
  selectRef_current : option string;
  isConfirmAddModalOpen : bool;
  isConfirmRemoveModalOpen : bool
}.
End Page.

(** The calls of [propertyApiService]. *)
Inductive ApiCall : Type :=
| addTenant (propertyId : Z) (tenantId : Z)
| removeTenant (id : string) (tenantId : Z).

(** How the promise of a call settles; the reason of a rejection is
    opaque to the page. *)
Inductive Outcome : Type :=
| Resolved
| Rejected (reason : string).

(** What a handler does to its collaborators, in the order it does it. *)
Inductive Effect : Type :=
| Api (call : ApiCall)
| ShowSuccess (title message : string)
| ShowError (title message : string)
| SetSelectedTenant (tenant : option Tenant.t)
| Mutate
| SetSelectValue (value : string)
| CloseConfirmAddModal
| CloseConfirmRemoveModal.

(** A block of a handler completes normally or throws. *)
Inductive Completion (A : Type) : Type :=
| Normal (a : A)
| Throw (e : string).
Arguments Normal {A} a.
Arguments Throw {A} e.

(** A block of a handler: from the page state to its completion, the new
    state and the effects performed. *)
Definition Handler (A : Type) : Type :=
  Page.t -> Completion A * Page.t * list Effect.

Definition ret {A : Type} (a : A) : Handler A :=
  fun st => (Normal a, st, []).

Definition throw {A : Type} (e : string) : Handler A :=
  fun st => (Throw e, st, []).

Definition bind {A B : Type} (m : Handler A) (k : A -> Handler B)
  : Handler B :=
  fun st =>
    match m st with
    | (Normal a, st1, tr1) =>
        match k a st1 with
        | (r, st2, tr2) => (r, st2, tr1 ++ tr2)
        end
    | (Throw e, st1, tr1) => (Throw e, st1, tr1)
    end.

Declare Scope handler_scope.
Delimit Scope handler_scope with handler.
Notation "m1 ;; m2" := (bind m1 (fun _ => m2))
  (at level 61, right associativity) : handler_scope.

(** [try { body } catch (e) { handler e } finally { finalizer }]: the
    finalizer always runs; when it throws, its exception replaces the
    completion of the try/catch. *)
Definition try_catch_finally {A : Type}
  (body : Handler A) (handler : string -> Handler A)
  (finalizer : Handler unit) : Handler A :=
  fun st =>
    let '(r1, st1, tr1) :=
      match body st with
      | (Normal a, st', tr) => (Normal a, st', tr)
      | (Throw e, st', tr) =>
          match handler e st' with
          | (r, st'', tr') => (r, st'', tr ++ tr')
          end
      end in
    match finalizer st1 with
    | (Normal _, st2, tr2) => (r1, st2, tr1 ++ tr2)
    | (Throw e, st2, tr2) => (Throw e, st2, tr1 ++ tr2)
    end.

Definition emit (e : Effect) : Handler unit :=
  fun st => (Normal tt, st, [e]).

(** [await promise], once the promise has settled. *)
Definition await (outcome : Outcome) : Handler unit :=
  match outcome with
  | Resolved => ret tt
  | Rejected reason => throw reason
  end.

Definition showSuccess (title message : string) : Handler unit :=
  emit (ShowSuccess title message).

Definition showError (title message : string) : Handler unit :=
  emit (ShowError title message).

Definition mutate : Handler unit := emit Mutate.

Definition setSelectedTenant (tenant : option Tenant.t) : Handler unit :=
  fun st =>
    (Normal tt,
     Page.mk (Page.property st) (Page.id st) (Page.tenants st)
             (Page.isTenantsLoading st) tenant (Page.selectRef_current st)
             (Page.isConfirmAddModalOpen st)
             (Page.isConfirmRemoveModalOpen st),
     [SetSelectedTenant tenant]).

(** [selectRef.current.value = value]: a [TypeError] when the ref is
    empty. *)
Definition set_select_value (value : string) : Handler unit :=
  fun st =>
    match Page.selectRef_current st with
    | Some _ =>
        (Normal tt,
         Page.mk (Page.property st) (Page.id st) (Page.tenants st)
                 (Page.isTenantsLoading st) (Page.selectedTenant st)
                 (Some value)
                 (Page.isConfirmAddModalOpen st)
                 (Page.isConfirmRemoveModalOpen st),
         [SetSelectValue value])
    | None => (Throw "TypeError", st, [])
    end.

Definition closeConfirmAddModal : Handler unit :=
  fun st =>
    (Normal tt,
     Page.mk (Page.property st) (Page.id st) (Page.tenants st)
             (Page.isTenantsLoading st) (Page.selectedTenant st)
             (Page.selectRef_current st)
             false
             (Page.isConfirmRemoveModalOpen st),
     [CloseConfirmAddModal]).

Definition closeConfirmRemoveModal : Handler unit :=
  fun st =>
    (Normal tt,
     Page.mk (Page.property st) (Page.id st) (Page.tenants st)
             (Page.isTenantsLoading st) (Page.selectedTenant st)
             (Page.selectRef_current st)
             (Page.isConfirmAddModalOpen st)
             false,
     [CloseConfirmRemoveModal]).

(** An [async] handler that awaits at most one call: it has returned
    without a call, or it has issued [call] and goes on with [resume] when
    the promise settles, on the page state of that moment. *)
Inductive Async : Type :=
| Returned
| Awaiting (call : ApiCall) (resume : Outcome -> Handler unit).

(** A route parameter is truthy when it is present and not empty. *)
Definition truthy (s : option string) : option string :=
  match s with
  | Some (String c s') => Some (String c s')
  | _ => None
  end.

Local Open Scope handler_scope.

(** [onTenantAddSubmit].  [property] and [selectedTenant] are the values
    the callback closed over; [selectRef.current] is read when used. *)
Definition onTenantAddSubmit (st : Page.t) : Async :=
  match Page.property st, Page.selectedTenant st, Page.selectRef_current st
  with
  | Some property, Some selectedTenant, Some _ =>
      Awaiting
        (addTenant (Property.id property) (Tenant.id selectedTenant))
        (fun outcome =>
           try_catch_finally
             (await outcome ;;
              showSuccess "Tenant added"
                (Tenant.name selectedTenant
                   ++ " was added to the property.")%string)
             (fun e =>
                showError "Error"
                  "An error occured while trying to add the tenant to the property.")
             (setSelectedTenant None ;;
              mutate ;;
              set_select_value "" ;;
              closeConfirmAddModal))
  | _, _, _ => Returned
  end.

(** [onTenantAddCancel]. *)
Definition onTenantAddCancel : Handler unit :=
  setSelectedTenant None ;;
  closeConfirmAddModal.

(** [onTenantRemoveSubmit]. *)
Definition onTenantRemoveSubmit (st : Page.t) : Async :=
  match Page.selectedTenant st, truthy (Page.id st) with
  | Some selectedTenant, Some id =>
      Awaiting
        (removeTenant id (Tenant.id selectedTenant))
        (fun outcome =>
           try_catch_finally
             (await outcome ;;
              showSuccess "Tenant removed"
                (Tenant.name selectedTenant
                   ++ " was removed from the property")%string)
             (fun e =>
                showError "Error"
                  "An error occurred while trying to remove the tenant from the property")
             (setSelectedTenant None ;;
              closeConfirmRemoveModal ;;
              mutate))
  | _, _ => Returned
  end.

Local Close Scope handler_scope.

(** [isDisabled] of the tenant [<select>]. *)
Definition select_isDisabled (st : Page.t) : bool :=
  Page.isTenantsLoading st
  || match tenantOptions (Some (Page.tenants st)) (Page.property st) with
     | [] => true
     | _ :: _ => false
     end
  || match Page.selectedTenant st with
     | Some _ => true
     | None => false
     end.

(** The page together with the event loop: the calls that are pending with
    the continuation of their handler, the effects performed so far and
    the exceptions a handler let escape. *)
Record World : Type := mkWorld {
  page : Page.t;
  inflight : list (ApiCall * (Outcome -> Handler unit));
  effects : list Effect;
  unhandled : list string
}.

(** The user confirms in a modal: the handler runs up to its [await]. *)
Definition invoke (handler : Page.t -> Async) (w : World) : World :=
  match handler (page w) with
  | Returned => w
  | Awaiting call resume =>
      mkWorld (page w) (inflight w ++ [(call, resume)])
              (effects w ++ [Api call]) (unhandled w)
  end.

(** The oldest pending call settles: the rest of its handler runs. *)
Definition settle (outcome : Outcome) (w : World) : World :=
  match inflight w with
  | [] => w
  | (_, resume) :: rest =>
      match resume outcome (page w) with
      | (Normal _, st, tr) =>
          mkWorld st rest (effects w ++ tr) (unhandled w)
      | (Throw e, st, tr) =>
          mkWorld st rest (effects w ++ tr) (unhandled w ++ [e])
      end
  end.

(** Between two events the page may be rendered anew: the pending calls
    then find the page [st] when they settle. *)
Definition with_page (st : Page.t) (w : World) : World :=
  mkWorld st (inflight w) (effects w) (unhandled w).

(** The states of the workflow, read off the page and the event loop. *)
Inductive WorkflowState : Type :=
| Idle
| Selected
| Submitting.

Definition workflow (w : World) : WorkflowState :=
  match inflight w with
  | _ :: _ => Submitting
  | [] =>
      match Page.selectedTenant (page w) with
      | Some _ => Selected
      | None => Idle
      end
  end.

(** The calls among a list of effects. *)
Fixpoint api_calls (tr : list Effect) : list ApiCall :=
  match tr with
  | [] => []
  | Api call :: tr' => call :: api_calls tr'
  | _ :: tr' => api_calls tr'
  end.

(** The steps the specification orders. *)
Inductive EffectKind : Type :=
| ApiCallStep
| NotificationStep
| StateResetStep
| ModalCloseStep
| RefetchStep
| WidgetResetStep.

Definition kind_of (e : Effect) : EffectKind :=
  match e with
  | Api _ => ApiCallStep
  | ShowSuccess _ _ | ShowError _ _ => NotificationStep
  | SetSelectedTenant _ => StateResetStep
  | CloseConfirmAddModal | CloseConfirmRemoveModal => ModalCloseStep
  | Mutate => RefetchStep
  | SetSelectValue _ => WidgetResetStep
  end.

Definition is_widget_reset (k : EffectKind) : bool :=
  match k with
  | WidgetResetStep => true
  | _ => false
  end.

(** The order of the specification: API call, notification, local state
    reset, modal close, refetch scheduling. *)
Definition spec_order : list EffectKind :=
  [ApiCallStep; NotificationStep; StateResetStep; ModalCloseStep;
   RefetchStep].

(** The steps of a run, the reset of the selection widget left out (the
    specification gives it no place in the order). *)
Definition ordered_steps (tr : list Effect) : list EffectKind :=
  filter (fun k => negb (is_widget_reset k)) (map kind_of tr).

(** The effects of one run of a handler from a quiet page, the call
    settling with [outcome]. *)
Definition run (handler : Page.t -> Async) (outcome : Outcome) (st : Page.t)
  : World :=
  settle outcome (invoke handler (mkWorld st [] [] [])).

(** The notifications among a list of effects. *)
Definition is_notification (e : Effect) : bool :=
  match e with
  | ShowSuccess _ _ | ShowError _ _ => true
  | _ => false
  end.

Definition notifications (tr : list Effect) : list Effect :=
  filter is_notification tr.

(** [message.includes(sub)] on strings. *)
Fixpoint contains (sub s : string) : bool :=
  String.prefix sub s
  || match s with
     | EmptyString => false
     | String _ s' => contains sub s'
     end.

(* ================================================================= *)
(** ** [EditTenantModal]: pre-population of the form *)

Definition is_space (c : ascii) : bool := Ascii.eqb c " "%char.

(** [s.split(' ')]: the fields between the occurrences of the space
    character; never empty, [""] gives [[""]]. *)
Fixpoint split (s : string) : list string :=
  match s with
  | EmptyString => [EmptyString]
  | String c s' =>
      if is_space c then EmptyString :: split s'
      else
        match split s' with
        | [] => [String c EmptyString]
        | field :: fields => String c field :: fields
        end
  end.

(** The values of the form; a field is [None] when it is [undefined]. *)
Module FormValues.
Record t : Type := mk {
  first_name : option string;
  last_name : option string
}.
End FormValues.

(** The argument of [reset] in the effect of [EditTenantModal]:
    [name.split(' ')[0]] and [name.split(' ')[1]]. *)
Definition splitDisplayName (name : string) : FormValues.t :=
  FormValues.mk (nth_error (split name) 0) (nth_error (split name) 1).

(** The effect of [EditTenantModal]: with a tenant the form is reset to
    the split of its name, without one it is left alone. *)
Definition EditTenantModal_effect
  (tenant : option Tenant.t) (form : FormValues.t) : FormValues.t :=
  match tenant with
  | Some tenant => splitDisplayName (Tenant.name tenant)
  | None => form
  end.

(** The rule [required] of both inputs: the value is present and not
    empty. *)
Definition required (value : option string) : bool :=
  match value with
  | Some (String _ _) => true
  | _ => false
  end.

Definition isValid (form : FormValues.t) : bool :=
  required (FormValues.first_name form)
  && required (FormValues.last_name form).

(** [isDisabled] of the submit button. *)
Definition isDisabled
  (form : FormValues.t) (isSubmitting : bool) (tenant : option Tenant.t)
  : bool :=
  negb (isValid form)
  || isSubmitting
  || match tenant with
     | None => true
     | Some _ => false
     end.

(** The user types into the last-name input. *)
Definition type_last_name (text : string) (form : FormValues.t)
  : FormValues.t :=
  FormValues.mk (FormValues.first_name form) (Some text).

(** The string holds a space character. *)
Fixpoint has_space (s : string) : bool :=
  match s with
  | EmptyString => false
  | String c s' => is_space c || has_space s'
  end.

(** The whitespace characters: space, tab, line feed, vertical tab, form
    feed, carriage return. *)
Definition is_whitespace (c : ascii) : bool :=
  let n := nat_of_ascii c in
  Nat.eqb n 32 || (Nat.leb 9 n && Nat.leb n 13).

(** The whitespace-delimited tokens of a string, as the specification
    words the split: maximal runs of characters that are not whitespace.
    [cur] is the token being read. *)
Fixpoint spec_tokens_from (cur : string) (s : string) : list string :=
  match s with
  | EmptyString =>
      match cur with
      | EmptyString => []
      | _ => [cur]
      end
  | String c s' =>
      if is_whitespace c then
        match cur with
        | EmptyString => spec_tokens_from EmptyString s'
        | _ => cur :: spec_tokens_from EmptyString s'
        end
      else spec_tokens_from (cur ++ String c EmptyString)%string s'
  end.

Definition spec_tokens (s : string) : list string :=
  spec_tokens_from EmptyString s.

(** The split as the specification words it: the first and the second
    whitespace-delimited token. *)
Definition spec_splitDisplayName (name : string) : FormValues.t :=
  FormValues.mk (nth_error (spec_tokens name) 0)
                (nth_error (spec_tokens name) 1).

(* ================================================================= *)
(** ** Sample data *)

Definition jane : Tenant.t := Tenant.mk 1 "Jane Doe".
Definition bob : Tenant.t := Tenant.mk 2 "Bob Ray".
Definition carol : Tenant.t := Tenant.mk 3 "Carol".

Definition usd (amount : float) : Money.t := Money.mk amount "USD".

(** A property with one tenant, an expense of May 2024 and one of April
    2024 (months count from 0). *)
Definition villa : Property.t :=
  Property.mk 7 "Sunset Villa" "Lisbon" "Two floors" (usd 250000)
    (Some (usd 5000))
    [Expense.mk (usd 100) (ValidDate 2024 4);
     Expense.mk (usd 50) (ValidDate 2024 3)]
    [bob].

Definition may_2024 : JsDate := ValidDate 2024 4.

(** The page once the user has picked Jane in the select: the add modal
    is open and waits for the confirmation. *)
Definition page_add_confirm : Page.t :=
  Page.mk (Some villa) (Some "7") [jane; bob; carol] false
          (Some jane) (Some "1") true false.

(** The page once the user has clicked the delete icon of Bob's card. *)
Definition page_remove_confirm : Page.t :=
  Page.mk (Some villa) (Some "7") [jane; bob; carol] false
          (Some bob) (Some "") false true.

(** A page whose property has not been fetched. *)
Definition page_no_property : Page.t :=
  Page.mk None None [jane; bob; carol] false (Some jane) (Some "1") true false.

Definition tab : string := String (ascii_of_nat 9) EmptyString.

(** The sample property with its two expenses in the other order, and a
    property without expenses. *)
Definition villa_reordered : Property.t :=
  Property.mk 7 "Sunset Villa" "Lisbon" "Two floors" (usd 250000)
    (Some (usd 5000))
    [Expense.mk (usd 50) (ValidDate 2024 3);
     Expense.mk (usd 100) (ValidDate 2024 4)]
    [bob].

Definition empty_lot : Property.t :=
  Property.mk 8 "Empty Lot" "Porto" "" (usd 90000) None [] [].

(** Two properties with the same three expenses of May 2024, of
    9007199254740992 (two to the power 53), 1 and 1, in two orders. *)
Definition ledger_large_first : Property.t :=
  Property.mk 9 "Ledger" "Faro" "" (usd 1) None
    [Expense.mk (usd 9007199254740992) (ValidDate 2024 4);
     Expense.mk (usd 1) (ValidDate 2024 4);
     Expense.mk (usd 1) (ValidDate 2024 4)]
    [].

Definition ledger_large_last : Property.t :=
  Property.mk 9 "Ledger" "Faro" "" (usd 1) None
    [Expense.mk (usd 1) (ValidDate 2024 4);
     Expense.mk (usd 1) (ValidDate 2024 4);
     Expense.mk (usd 9007199254740992) (ValidDate 2024 4)]
    [].

(** The event loop of a page nothing has happened on yet. *)
Definition quiet (st : Page.t) : World := mkWorld st [] [] [].

(** The page after a render that does not show the tenant select (the
    property fetch reports an error): the ref is empty. *)
Definition select_unmounted (w : World) : World :=
  let st := page w in
  mkWorld
    (Page.mk (Page.property st) (Page.id st) (Page.tenants st)
             (Page.isTenantsLoading st) (Page.selectedTenant st) None
             (Page.isConfirmAddModalOpen st)
             (Page.isConfirmRemoveModalOpen st))
    (inflight w) (effects w) (unhandled w).

(* ================================================================= *)
(** ** Selection handlers of [PropertyPage] *)

(** [setSelectedTenant(tenant)] and the [onOpen] of the two disclosures,
    as updates of the page state. *)
Definition select_tenant (tenant : Tenant.t) (st : Page.t) : Page.t :=
  Page.mk (Page.property st) (Page.id st) (Page.tenants st)
          (Page.isTenantsLoading st) (Some tenant)
          (Page.selectRef_current st)
          (Page.isConfirmAddModalOpen st)
          (Page.isConfirmRemoveModalOpen st).

Definition openConfirmAddModal (st : Page.t) : Page.t :=
  Page.mk (Page.property st) (Page.id st) (Page.tenants st)
          (Page.isTenantsLoading st) (Page.selectedTenant st)
          (Page.selectRef_current st)
          true
          (Page.isConfirmRemoveModalOpen st).

Definition openConfirmRemoveModal (st : Page.t) : Page.t :=
  Page.mk (Page.property st) (Page.id st) (Page.tenants st)
          (Page.isTenantsLoading st) (Page.selectedTenant st)
          (Page.selectRef_current st)
          (Page.isConfirmAddModalOpen st)
          true.

(** The candidate list the page renders its options from. *)
Definition page_tenantOptions (st : Page.t) : list Tenant.t :=
  tenantOptions (Some (Page.tenants st)) (Page.property st).

(** [tenantOptions.find((t) => t.id === value)], [value] being
    [Number(e.target.value)]; [None] is the [undefined] of no match. *)
Definition find_option (value : JsNum) (options : list Tenant.t)
  : option Tenant.t :=
  find (fun t => strict_eq (Num (Tenant.id t)) value) options.

(** [onChange] of the tenant select, [value] being
    [Number(e.target.value)]; the browser has put the chosen value in the
    select before the handler runs, so [st] has it already.  With a match
    the tenant is selected and the add modal opened.  Without one the page
    sets [selectedTenant] to [undefined], a value the page state here does
    not have: [None]. *)
Definition select_onChange (value : JsNum) (st : Page.t) : option Page.t :=
  match find_option value (page_tenantOptions st) with
  | Some tenant => Some (openConfirmAddModal (select_tenant tenant st))
  | None => None
  end.

(** [onDeleteClick] of a tenant card. *)
Definition onDeleteClick (tenant : Tenant.t) (st : Page.t) : Page.t :=
  openConfirmRemoveModal (select_tenant tenant st).

(** Whether the page renders the chart: inside
    [!isPropertyError && property && (...)], under [revenue && (...)]. *)
Definition chart_is_rendered
  (isPropertyError : bool) (property : option Property.t) : bool :=
  negb isPropertyError
  && match property with
     | Some _ =>
         match revenue property with
         | Some _ => true
         | None => false
         end
     | None => false
     end.

(** The page of the villa once the user has chosen the option of Carol
    in the select, before [onChange] has run: nothing is selected yet. *)
Definition page_option_chosen : Page.t :=
  Page.mk (Some villa) (Some "7") [jane; bob; carol] false
          None (Some "3") false false.

(* ================================================================= *)
(** ** Submission of the edit form *)

(** [TenantUpdateDto]: the values of the form and the [id]. *)
Module TenantUpdateDto.
Record t : Type := mk {
  first_name : option string;
  last_name : option string;
  id : Z
}.
End TenantUpdateDto.

(** The argument of [onSubmit]: [{...values, id: tenant?.id ?? 0}]. *)
Definition submitted_dto (values : FormValues.t) (tenant : option Tenant.t)
  : TenantUpdateDto.t :=
  TenantUpdateDto.mk
    (FormValues.first_name values) (FormValues.last_name values)
    (match tenant with
     | Some tenant => Tenant.id tenant
     | None => 0
     end).

(** A click on the submit button: nothing while the button is disabled;
    else [handleSubmit] validates the values and calls back only when they
    pass. *)
Definition button_onClick
  (form : FormValues.t) (isSubmitting : bool) (tenant : option Tenant.t)
  : option TenantUpdateDto.t :=
  if isDisabled form isSubmitting tenant then None
  else if isValid form then Some (submitted_dto form tenant)
  else None.

(** [fields.join(' ')]. *)
Fixpoint join (fields : list string) : string :=
  match fields with
  | [] => EmptyString
  | [field] => field
  | field :: fields' => (field ++ String " " (join fields'))%string
  end.

(** The number of space characters of a string. *)
Fixpoint count_spaces (s : string) : nat :=
  match s with
  | EmptyString => O
  | String c s' => if is_space c then S (count_spaces s') else count_spaces s'
  end.

(* ================================================================= *)
(** * Properties *)

(* ================================================================= *)
(** ** Candidate tenants *)

Section Candidates.

Lemma includes_In (xs : list Z) (x : Z) :
  includes xs x = true <-> In x xs.
Proof.
  unfold includes. rewrite existsb_exists. split.
  - intros [y [Hy Heq]]. apply Z.eqb_eq in Heq. now subst.
  - intros Hx. exists x. split; [assumption | apply Z.eqb_refl].
Qed.

Lemma includes_not_In (xs : list Z) (x : Z) :
  negb (includes xs x) = true <-> ~ In x xs.
Proof.
  rewrite negb_true_iff, <- not_true_iff_false.
  now rewrite includes_In.
Qed.

Lemma NoDup_map_filter {A B : Type} (f : A -> B) (keep : A -> bool)
  (l : list A) :
  NoDup (map f l) -> NoDup (map f (filter keep l)).
Proof.
  induction l as [| a l IH]; simpl; intros Hnd.
  - constructor.
  - inversion Hnd as [| ? ? Hnotin Hrest]; subst.
    destruct (keep a); simpl; auto.
    constructor; auto.
    intros Hin. apply Hnotin.
    apply in_map_iff in Hin. destruct Hin as [a' [Hfa Ha']].
    apply filter_In in Ha'. apply in_map_iff. exists a'. tauto.
Qed.

Lemma filter_idempotent {A : Type} (keep : A -> bool) (l : list A) :
  filter keep (filter keep l) = filter keep l.
Proof.
  induction l as [| a l IH]; simpl; auto.
  destruct (keep a) eqn:Hk; simpl; rewrite ?Hk, IH; reflexivity.
Qed.

Variable allTenants : list Tenant.t.
Variable P : Property.t.

(** C1.  With both fetches answered, [tenantOptions] is the difference of
    the tenant collection and the tenants of the property, taken by id: a
    tenant is in the result exactly when it is in the collection and its
    id is not an id of a tenant of the property.  No id of a tenant of the
    property is the id of a result; a collection without duplicates (as
    values, or by id) gives a result without duplicates; computing again
    gives the same list, and so does filtering the result once more. *)
Theorem tenantOptions_is_difference_by_id :
  let assigned := map Tenant.id (Property.tenants P) in
  let result := tenantOptions (Some allTenants) (Some P) in
  (forall t, In t result <->
             In t allTenants /\ ~ In (Tenant.id t) assigned)
  /\ (forall i, In i assigned -> ~ In i (map Tenant.id result))
  /\ (NoDup allTenants -> NoDup result)
  /\ (NoDup (map Tenant.id allTenants) -> NoDup (map Tenant.id result))
  /\ tenantOptions (Some allTenants) (Some P) = result
  /\ tenantOptions (Some result) (Some P) = result.
Proof.
  cbv zeta. unfold tenantOptions.
  split; [| split; [| split; [| split; [| split]]]].
  - intros t. rewrite filter_In, includes_not_In. reflexivity.
  - intros i Hi Hin. apply in_map_iff in Hin.
    destruct Hin as [t [Hid Ht]]. apply filter_In in Ht.
    destruct Ht as [_ Hk]. apply includes_not_In in Hk.
    apply Hk. now rewrite Hid.
  - intros Hnd. now apply NoDup_filter.
  - intros Hnd. now apply NoDup_map_filter.
  - reflexivity.
  - apply filter_idempotent.
Qed.

End Candidates.

(** The candidates for the sample property: Bob is already a tenant. *)
Lemma tenantOptions_is_difference_by_id_witness :
  NoDup (tenantOptions (Some [jane; bob; carol]) (Some villa))
  /\ NoDup (map Tenant.id (tenantOptions (Some [jane; bob; carol])
                                         (Some villa))).
Proof.
  destruct (tenantOptions_is_difference_by_id [jane; bob; carol] villa)
    as (_ & _ & Hvalues & Hids & _).
  split.
  - apply Hvalues.
    repeat constructor; simpl; intuition discriminate.
  - apply Hids.
    repeat constructor; simpl; intuition discriminate.
Defined.

(* ================================================================= *)
(** ** Current-month expense total and chart series *)

Section Financials.

(** The filter keeps the expenses with a valid date in the month and the
    year of a valid current date. *)
Lemma in_current_month_iff (today : JsDate) (e : Expense.t) :
  in_current_month today e = true <->
  exists y m, Expense.date e = ValidDate y m /\ today = ValidDate y m.
Proof.
  unfold in_current_month.
  destruct (Expense.date e) as [y m |], today as [y' m' |]; simpl;
    try (split; [discriminate | intros (? & ? & ? & ?); discriminate]).
  rewrite andb_true_iff, !Z.eqb_eq. split.
  - intros [Hm Hy]. subst. eauto.
  - intros (y0 & m0 & He & Hn). inversion He; inversion Hn; subst. auto.
Qed.

(** The [reduce] of the page from any accumulator is the running sum the
    specification describes, from that accumulator. *)
Lemma reduce_filter_total
  (today : JsDate) (es : list Expense.t) (acc : float) :
  fold_left (fun acc expense =>
               (acc + Number (Money.amount (Expense.amount expense)))%float)
            (filter (in_current_month today) es) acc
  = spec_month_total_from today acc es.
Proof.
  unfold Number. revert acc. induction es as [| e es IH]; intros acc; simpl.
  - reflexivity.
  - unfold in_current_month at 1.
    destruct (Expense.date e) as [y m |], today as [y' m' |]; simpl;
      try apply IH.
    destruct (andb (Z.eqb m m') (Z.eqb y y')); simpl; apply IH.
Qed.

Lemma expenses_total (today : JsDate) (Q : Property.t) :
  expenses today (Some Q)
  = Some (spec_month_total today (Property.expenses Q)).
Proof.
  unfold expenses, spec_month_total. now rewrite reduce_filter_total.
Qed.

(** C5, as the code has it.  The total of [expenses] is the sum, added in
    double arithmetic from 0 in the order of the collection, of the
    [amount] of exactly the expenses of the property whose date lies in
    the calendar month and year of the current date; it is 0 for a
    property without expenses, and it is the same for two collections
    that have the same expenses of the current month in the same order,
    whatever other expenses they hold and wherever these stand. *)
Theorem expenses_is_current_month_sum (P : Property.t) (today : JsDate) :
  expenses today (Some P) = Some (spec_month_total today (Property.expenses P))
  /\ (forall e, In e (filter (in_current_month today) (Property.expenses P))
                <-> In e (Property.expenses P)
                    /\ exists y m, Expense.date e = ValidDate y m
                                   /\ today = ValidDate y m)
  /\ (Property.expenses P = [] -> expenses today (Some P) = Some 0%float)
  /\ (forall P',
         filter (in_current_month today) (Property.expenses P')
         = filter (in_current_month today) (Property.expenses P) ->
         expenses today (Some P') = expenses today (Some P)).
Proof.
  split; [apply expenses_total |]. split; [| split].
  - intros e. rewrite filter_In, in_current_month_iff. reflexivity.
  - intros Hempty. unfold expenses. rewrite Hempty. reflexivity.
  - intros P' Hsame. unfold expenses. now rewrite Hsame.
Qed.

(** C6.  [chartData] has exactly two entries, [Revenue] then [Expenses];
    the value of the first is the revenue amount, 0 without a revenue, the
    value of the second is the expense total, 0 without one, and the
    colours of the entries are the same for all data. *)
Theorem chartData_two_fixed_entries
  (monthly : option Money.t) (expenseTotal : option float) :
  exists first second,
    chartData monthly expenseTotal = [first; second]
    /\ ChartEntry.name first = "Revenue"
    /\ ChartEntry.name second = "Expenses"
    /\ ChartEntry.value first
       = match monthly with Some r => Money.amount r | None => 0%float end
    /\ ChartEntry.value second
       = match expenseTotal with Some total => total | None => 0%float end
    /\ (forall monthly' expenseTotal',
          map ChartEntry.fill (chartData monthly' expenseTotal')
          = map ChartEntry.fill (chartData monthly expenseTotal))
    /\ map (fun entry => (ChartEntry.name entry, ChartEntry.value entry))
           (chartData (Some (usd 5000)) (Some 1200%float))
       = [("Revenue", 5000%float); ("Expenses", 1200%float)]
    /\ (forall today,
          map ChartEntry.value (chartData (revenue None) (expenses today None))
          = [0%float; 0%float]).
Proof.
  unfold chartData. eexists. eexists.
  split; [reflexivity |]. simpl. repeat split; reflexivity.
Qed.

End Financials.

(** C5 fails as stated: the two sample ledgers hold the same three
    expenses of May 2024, in two orders, and their totals differ; the
    first is not the sum of its amounts. *)
Lemma expenses_depend_on_order :
  Permutation (Property.expenses ledger_large_first)
              (Property.expenses ledger_large_last)
  /\ expenses may_2024 (Some ledger_large_first)
     = Some 9007199254740992%float
  /\ expenses may_2024 (Some ledger_large_last)
     = Some 9007199254740994%float
  /\ expenses may_2024 (Some ledger_large_first)
     <> expenses may_2024 (Some ledger_large_last).
Proof.
  split; [| split; [| split]].
  - apply (Permutation_cons_append
             [Expense.mk (usd 1) (ValidDate 2024 4);
              Expense.mk (usd 1) (ValidDate 2024 4)]).
  - reflexivity.
  - reflexivity.
  - intros Heq. apply (f_equal (option_map Prim2SF)) in Heq.
    vm_compute in Heq. discriminate Heq.
Qed.

(** Both clauses of the amended C5 that have a premise, on the sample
    data: the villa with its expense of April moved in front has the
    total of the villa. *)
Lemma expenses_is_current_month_sum_witness :
  expenses may_2024 (Some empty_lot) = Some 0%float
  /\ expenses may_2024 (Some villa_reordered) = expenses may_2024 (Some villa).
Proof.
  split.
  - destruct (expenses_is_current_month_sum empty_lot may_2024)
      as (_ & _ & Hempty & _).
    apply Hempty. reflexivity.
  - destruct (expenses_is_current_month_sum villa may_2024)
      as (_ & _ & _ & Horder).
    apply Horder. reflexivity.
Defined.

(* ================================================================= *)
(** ** The add/remove tenant handlers *)

(** Runs a handler applied to a page given field by field. *)
Ltac run_handler :=
  cbv [run quiet invoke settle workflow page inflight effects unhandled
       onTenantAddSubmit onTenantRemoveSubmit truthy
       try_catch_finally bind ret throw emit await
       showSuccess showError mutate setSelectedTenant set_select_value
       closeConfirmAddModal closeConfirmRemoveModal
       Page.property Page.id Page.tenants Page.isTenantsLoading
       Page.selectedTenant Page.selectRef_current
       Page.isConfirmAddModalOpen Page.isConfirmRemoveModalOpen
       app api_calls notifications is_notification filter
       ordered_steps kind_of is_widget_reset map negb].

Section Workflow.

(** C8.  Without its inputs a submit handler does nothing: when the
    property or the selected tenant is absent, [onTenantAddSubmit] returns
    without a call and leaves the page, the pending calls, the effects and
    the escaped exceptions as they were; so does [onTenantRemoveSubmit]
    when the selected tenant or the route [id] is absent. *)
Theorem submit_without_inputs_is_noop (w : World) :
  (Page.property (page w) = None \/ Page.selectedTenant (page w) = None ->
   onTenantAddSubmit (page w) = Returned
   /\ invoke onTenantAddSubmit w = w)
  /\ (Page.selectedTenant (page w) = None \/ Page.id (page w) = None ->
      onTenantRemoveSubmit (page w) = Returned
      /\ invoke onTenantRemoveSubmit w = w).
Proof.
  split; intros Habsent.
  - assert (Hret : onTenantAddSubmit (page w) = Returned).
    { unfold onTenantAddSubmit.
      destruct Habsent as [H | H]; rewrite H.
      - reflexivity.
      - now destruct (Page.property (page w)). }
    split; [assumption |]. unfold invoke. now rewrite Hret.
  - assert (Hret : onTenantRemoveSubmit (page w) = Returned).
    { unfold onTenantRemoveSubmit.
      destruct Habsent as [H | H]; rewrite H.
      - reflexivity.
      - now destruct (Page.selectedTenant (page w)). }
    split; [assumption |]. unfold invoke. now rewrite Hret.
Qed.

(** The cleanup where the page is at the settlement of the call what it
    was at the invocation.  Whatever the outcome of the call: a run of
    [onTenantAddSubmit] that made its call ends with no tenant selected,
    the add modal closed and the workflow idle, after clearing the
    selection, asking for the refetch and closing the modal; a run of
    [onTenantRemoveSubmit] likewise, with the remove modal. *)
Theorem submit_cleanup_on_every_outcome (outcome : Outcome) (st : Page.t) :
  (forall property tenant value,
      Page.property st = Some property ->
      Page.selectedTenant st = Some tenant ->
      Page.selectRef_current st = Some value ->
      let w := run onTenantAddSubmit outcome st in
      Page.selectedTenant (page w) = None
      /\ Page.isConfirmAddModalOpen (page w) = false
      /\ workflow w = Idle
      /\ (exists before,
             effects w = before ++ [SetSelectedTenant None; Mutate;
                                    SetSelectValue ""; CloseConfirmAddModal])
      /\ unhandled w = [])
  /\ (forall tenant c id,
         Page.selectedTenant st = Some tenant ->
         Page.id st = Some (String c id) ->
         let w := run onTenantRemoveSubmit outcome st in
         Page.selectedTenant (page w) = None
         /\ Page.isConfirmRemoveModalOpen (page w) = false
         /\ workflow w = Idle
         /\ (exists before,
                effects w = before ++ [SetSelectedTenant None;
                                       CloseConfirmRemoveModal; Mutate])
         /\ unhandled w = []).
Proof.
  destruct st as [prop rid ts loading sel ref addOpen removeOpen].
  split.
  - intros property tenant value Hp Hs Hr. simpl in Hp, Hs, Hr. subst.
    destruct outcome; run_handler;
      (repeat split; try reflexivity);
      eexists [_; _]; reflexivity.
  - intros tenant c id Hs Hid. simpl in Hs, Hid. subst.
    destruct outcome; run_handler;
      (repeat split; try reflexivity);
      eexists [_; _]; reflexivity.
Qed.

(** Cancelling the add confirmation makes no call: it clears the
    selection and closes the modal. *)
Lemma onTenantAddCancel_effects (st : Page.t) :
  exists st',
    onTenantAddCancel st
    = (Normal tt, st', [SetSelectedTenant None; CloseConfirmAddModal])
    /\ Page.selectedTenant st' = None
    /\ Page.isConfirmAddModalOpen st' = false.
Proof.
  eexists. repeat split.
Qed.

(** The cleanup does not depend on the page staying as it was while the
    call is pending: whatever the page is when the call settles, the remove
    handler clears the selection and closes its modal, and so does the add
    handler provided the select is still mounted. *)
Lemma cleanup_on_later_page (outcome : Outcome) (st later : Page.t) :
  (forall property tenant value value',
      Page.property st = Some property ->
      Page.selectedTenant st = Some tenant ->
      Page.selectRef_current st = Some value ->
      Page.selectRef_current later = Some value' ->
      let w := settle outcome
                 (with_page later (invoke onTenantAddSubmit (quiet st))) in
      Page.selectedTenant (page w) = None
      /\ Page.isConfirmAddModalOpen (page w) = false
      /\ workflow w = Idle
      /\ unhandled w = [])
  /\ (forall tenant c id,
         Page.selectedTenant st = Some tenant ->
         Page.id st = Some (String c id) ->
         let w := settle outcome
                    (with_page later (invoke onTenantRemoveSubmit (quiet st)))
         in
         Page.selectedTenant (page w) = None
         /\ Page.isConfirmRemoveModalOpen (page w) = false
         /\ workflow w = Idle
         /\ unhandled w = []).
Proof.
  destruct st as [prop rid ts loading sel ref addOpen removeOpen].
  destruct later as [prop' rid' ts' loading' sel' ref' addOpen' removeOpen'].
  split.
  - intros property tenant value value' Hp Hs Hr Hr'.
    simpl in Hp, Hs, Hr, Hr'. subst.
    destruct outcome; repeat split.
  - intros tenant c id Hs Hid. simpl in Hs, Hid. subst.
    destruct outcome; repeat split.
Qed.

End Workflow.

(** C2.  The cleanup of [onTenantAddSubmit] is not performed in full on
    every outcome.  The guard reads [selectRef.current] before the call and
    the [finally] block reads it again after: on the sample page, when the
    select is unmounted while the call is pending and the call then
    resolves or is rejected, the assignment to the value of the select
    throws once the selection is cleared and the refetch asked for;
    [closeConfirmAddModal] is not reached, the exception escapes the
    handler and the add modal is left open. *)
Remark add_cleanup_reads_select_ref_again :
  let pending := invoke onTenantAddSubmit (quiet page_add_confirm) in
  let w := settle Resolved (select_unmounted pending) in
  let w' := settle (Rejected "500") (select_unmounted pending) in
  effects w
  = [Api (addTenant 7 1);
     ShowSuccess "Tenant added" "Jane Doe was added to the property.";
     SetSelectedTenant None; Mutate]
  /\ unhandled w = ["TypeError"]
  /\ Page.selectedTenant (page w) = None
  /\ Page.isConfirmAddModalOpen (page w) = true
  /\ ~ In CloseConfirmAddModal (effects w)
  /\ unhandled w' = ["TypeError"]
  /\ Page.isConfirmAddModalOpen (page w') = true
  /\ ~ In CloseConfirmAddModal (effects w').
Proof.
  cbv zeta. repeat split; try reflexivity;
    simpl; intuition discriminate.
Qed.

(** The cleanup on the sample pages, for a call that resolves and for a
    call that is rejected. *)
Lemma submit_cleanup_on_every_outcome_witness :
  workflow (run onTenantAddSubmit Resolved page_add_confirm) = Idle
  /\ workflow (run onTenantRemoveSubmit (Rejected "500") page_remove_confirm)
     = Idle.
Proof.
  split.
  - destruct (submit_cleanup_on_every_outcome Resolved page_add_confirm)
      as [Hadd _].
    apply (Hadd villa jane "1"); reflexivity.
  - destruct (submit_cleanup_on_every_outcome (Rejected "500")
                                              page_remove_confirm)
      as [_ Hremove].
    apply (Hremove bob "7"%char EmptyString); reflexivity.
Defined.

(** C8 on the sample page without a property. *)
Lemma submit_without_inputs_is_noop_witness :
  invoke onTenantAddSubmit (quiet page_no_property) = quiet page_no_property
  /\ invoke onTenantRemoveSubmit (quiet page_no_property)
     = quiet page_no_property.
Proof.
  destruct (submit_without_inputs_is_noop (quiet page_no_property))
    as [Hadd Hremove].
  split.
  - apply Hadd. left. reflexivity.
  - apply Hremove. right. reflexivity.
Defined.

(* ================================================================= *)
(** ** Submissions in flight *)

Section InFlight.

(** Issuing a call leaves the page as it is: until the call settles, the
    inputs of the handlers are what they were. *)
Lemma invoke_keeps_page (handler : Page.t -> Async) (w : World) :
  page (invoke handler w) = page w.
Proof.
  unfold invoke. now destruct (handler (page w)).
Qed.

Lemma api_calls_app (tr tr' : list Effect) :
  api_calls (tr ++ tr') = api_calls tr ++ api_calls tr'.
Proof.
  induction tr as [| e tr IH]; simpl; [reflexivity |].
  destruct e; simpl; now rewrite IH.
Qed.

(** C3, as the code has it.  The handlers do not look at the calls in
    flight: with its inputs present, an invocation of [onTenantAddSubmit]
    or of [onTenantRemoveSubmit] issues its call and puts the workflow in
    [Submitting], and a second invocation before the first call settles
    issues the same call again.  What gates the workflow is the selection
    only: while a tenant is selected the tenant select is disabled, and
    with no tenant selected both handlers do nothing. *)
Theorem submit_gated_by_selection_only (w : World) :
  (forall property tenant value,
      Page.property (page w) = Some property ->
      Page.selectedTenant (page w) = Some tenant ->
      Page.selectRef_current (page w) = Some value ->
      let call := addTenant (Property.id property) (Tenant.id tenant) in
      let w1 := invoke onTenantAddSubmit w in
      let w2 := invoke onTenantAddSubmit w1 in
      workflow w1 = Submitting
      /\ api_calls (effects w1) = api_calls (effects w) ++ [call]
      /\ api_calls (effects w2) = api_calls (effects w) ++ [call; call])
  /\ (forall tenant c id,
         Page.selectedTenant (page w) = Some tenant ->
         Page.id (page w) = Some (String c id) ->
         let call := removeTenant (String c id) (Tenant.id tenant) in
         let w1 := invoke onTenantRemoveSubmit w in
         let w2 := invoke onTenantRemoveSubmit w1 in
         workflow w1 = Submitting
         /\ api_calls (effects w1) = api_calls (effects w) ++ [call]
         /\ api_calls (effects w2) = api_calls (effects w) ++ [call; call])
  /\ (forall tenant, Page.selectedTenant (page w) = Some tenant ->
                     select_isDisabled (page w) = true)
  /\ (Page.selectedTenant (page w) = None ->
      invoke onTenantAddSubmit w = w /\ invoke onTenantRemoveSubmit w = w).
Proof.
  destruct w as [st pending done escaped].
  destruct st as [prop rid ts loading sel ref addOpen removeOpen].
  split; [| split; [| split]].
  - intros property tenant value Hp Hs Hr. simpl in Hp, Hs, Hr. subst.
    cbv zeta. unfold invoke at 2. simpl page. simpl onTenantAddSubmit.
    unfold invoke. simpl page. simpl onTenantAddSubmit. simpl effects.
    repeat split.
    + unfold workflow. simpl. now destruct pending.
    + rewrite api_calls_app. reflexivity.
    + rewrite !api_calls_app, <- app_assoc. reflexivity.
  - intros tenant c id Hs Hid. simpl in Hs, Hid. subst.
    cbv zeta. unfold invoke at 2. simpl page. simpl onTenantRemoveSubmit.
    unfold invoke. simpl page. simpl onTenantRemoveSubmit. simpl effects.
    repeat split.
    + unfold workflow. simpl. now destruct pending.
    + rewrite api_calls_app. reflexivity.
    + rewrite !api_calls_app, <- app_assoc. reflexivity.
  - intros tenant Hs. simpl in Hs. subst. unfold select_isDisabled. simpl.
    now rewrite orb_true_r.
  - intros Hs. simpl in Hs. subst. unfold invoke. simpl.
    split; [now destruct prop | reflexivity].
Qed.

End InFlight.

(** C3 fails as stated: on the sample page, with the first add call
    pending and the workflow in [Submitting], a second invocation of
    [onTenantAddSubmit] is neither rejected nor ignored, it issues the
    call a second time; and so does [onTenantRemoveSubmit]. *)
Lemma second_submit_issues_second_call :
  let w1 := invoke onTenantAddSubmit (quiet page_add_confirm) in
  let w2 := invoke onTenantAddSubmit w1 in
  let r1 := invoke onTenantRemoveSubmit (quiet page_remove_confirm) in
  let r2 := invoke onTenantRemoveSubmit r1 in
  workflow w1 = Submitting
  /\ api_calls (effects w1) = [addTenant 7 1]
  /\ api_calls (effects w2) = [addTenant 7 1; addTenant 7 1]
  /\ List.length (inflight w2) = 2%nat
  /\ workflow r1 = Submitting
  /\ api_calls (effects r2) = [removeTenant "7" 2; removeTenant "7" 2]
  /\ ~ (forall w, workflow w = Submitting ->
                  api_calls (effects (invoke onTenantAddSubmit w))
                  = api_calls (effects w)).
Proof.
  cbv zeta. repeat split.
  intros Hignored.
  specialize (Hignored (invoke onTenantAddSubmit (quiet page_add_confirm))
                       eq_refl).
  discriminate Hignored.
Qed.

(** The amended C3 on the sample pages. *)
Lemma submit_gated_by_selection_only_witness :
  api_calls
    (effects (invoke onTenantAddSubmit
                (invoke onTenantAddSubmit (quiet page_add_confirm))))
  = [addTenant 7 1; addTenant 7 1]
  /\ select_isDisabled page_add_confirm = true
  /\ invoke onTenantAddSubmit
       (run onTenantAddSubmit Resolved page_add_confirm)
     = run onTenantAddSubmit Resolved page_add_confirm.
Proof.
  split; [| split].
  - destruct (submit_gated_by_selection_only (quiet page_add_confirm))
      as (Hadd & _).
    apply (Hadd villa jane "1"); reflexivity.
  - destruct (submit_gated_by_selection_only (quiet page_add_confirm))
      as (_ & _ & Hdisabled & _).
    apply (Hdisabled jane). reflexivity.
  - destruct (submit_gated_by_selection_only
                (run onTenantAddSubmit Resolved page_add_confirm))
      as (_ & _ & _ & Hidle).
    apply Hidle. reflexivity.
Defined.

(* ================================================================= *)
(** ** Order of the side effects and notifications *)

Section SideEffects.

Lemma prefix_append (s rest : string) :
  String.prefix s (s ++ rest)%string = true.
Proof.
  induction s as [| c s IH]; simpl.
  - now destruct rest.
  - destruct (ascii_dec c c) as [_ | Hneq]; [apply IH | now elim Hneq].
Qed.

Lemma contains_prefix (sub s : string) :
  String.prefix sub s = true -> contains sub s = true.
Proof.
  intros Hp. destruct s as [| c s].
  - destruct sub; [reflexivity | discriminate Hp].
  - cbn [contains]. rewrite Hp. reflexivity.
Qed.

(** C4, as the code has it.  Whatever the page is when the call settles,
    a run of [onTenantRemoveSubmit] that makes its call performs, in this
    order: the call, the notification, the reset of the selection, the
    close of the modal, the refetch.  A run of [onTenantAddSubmit] that
    makes its call performs: the call, the notification, the reset of the
    selection, the refetch, and then, when the select is still mounted at
    the settlement, the reset of the select widget and the close of the
    modal. *)
Theorem submit_effect_order (outcome : Outcome) (st later : Page.t) :
  (forall tenant c id,
      Page.selectedTenant st = Some tenant ->
      Page.id st = Some (String c id) ->
      map kind_of
          (effects (settle outcome
                      (with_page later
                         (invoke onTenantRemoveSubmit (quiet st)))))
      = spec_order)
  /\ (forall property tenant value,
         Page.property st = Some property ->
         Page.selectedTenant st = Some tenant ->
         Page.selectRef_current st = Some value ->
         exists rest,
           map kind_of
               (effects (settle outcome
                           (with_page later
                              (invoke onTenantAddSubmit (quiet st)))))
           = [ApiCallStep; NotificationStep; StateResetStep; RefetchStep]
               ++ rest
           /\ (forall value',
                  Page.selectRef_current later = Some value' ->
                  rest = [WidgetResetStep; ModalCloseStep])).
Proof.
  destruct st as [prop rid ts loading sel ref addOpen removeOpen].
  destruct later as [prop' rid' ts' loading' sel' ref' addOpen' removeOpen'].
  split.
  - intros tenant c id Hs Hid. simpl in Hs, Hid. subst.
    destruct outcome; reflexivity.
  - intros property tenant value Hp Hs Hr. simpl in Hp, Hs, Hr. subst.
    destruct ref' as [v' |].
    + exists [WidgetResetStep; ModalCloseStep].
      split; [destruct outcome; reflexivity | reflexivity].
    + exists []. split; [destruct outcome; reflexivity |].
      intros value' Hmounted. discriminate Hmounted.
Qed.

(** C7, as the code has it.  When the call resolves the only notification
    is a success whose text starts with the name of the tenant and goes
    on with fixed words, the same for every property; when the call is
    rejected the only notification is an error with a fixed text, the
    same for every reason of the rejection. *)
Theorem submit_notifications (st : Page.t) :
  (forall property tenant value,
      Page.property st = Some property ->
      Page.selectedTenant st = Some tenant ->
      Page.selectRef_current st = Some value ->
      let message :=
        (Tenant.name tenant ++ " was added to the property.")%string in
      notifications (effects (run onTenantAddSubmit Resolved st))
      = [ShowSuccess "Tenant added" message]
      /\ contains (Tenant.name tenant) message = true
      /\ forall reason,
          notifications (effects (run onTenantAddSubmit (Rejected reason) st))
          = [ShowError "Error"
               "An error occured while trying to add the tenant to the property."])
  /\ (forall tenant c id,
         Page.selectedTenant st = Some tenant ->
         Page.id st = Some (String c id) ->
         let message :=
           (Tenant.name tenant ++ " was removed from the property")%string in
         notifications (effects (run onTenantRemoveSubmit Resolved st))
         = [ShowSuccess "Tenant removed" message]
         /\ contains (Tenant.name tenant) message = true
         /\ forall reason,
             notifications
               (effects (run onTenantRemoveSubmit (Rejected reason) st))
             = [ShowError "Error"
                  "An error occurred while trying to remove the tenant from the property"]).
Proof.
  destruct st as [prop rid ts loading sel ref addOpen removeOpen].
  split.
  - intros property tenant value Hp Hs Hr. simpl in Hp, Hs, Hr. subst.
    cbv zeta. split; [reflexivity |]. split; [| reflexivity].
    apply contains_prefix, prefix_append.
  - intros tenant c id Hs Hid. simpl in Hs, Hid. subst.
    cbv zeta. split; [reflexivity |]. split; [| reflexivity].
    apply contains_prefix, prefix_append.
Qed.

End SideEffects.

(** C4 fails as stated: in the run of [onTenantAddSubmit] on the sample
    page the refetch is asked for before the modal is closed. *)
Lemma add_refetch_precedes_modal_close :
  effects (run onTenantAddSubmit Resolved page_add_confirm)
  = [Api (addTenant 7 1);
     ShowSuccess "Tenant added" "Jane Doe was added to the property.";
     SetSelectedTenant None; Mutate; SetSelectValue "";
     CloseConfirmAddModal]
  /\ ordered_steps (effects (run onTenantAddSubmit Resolved page_add_confirm))
     = [ApiCallStep; NotificationStep; StateResetStep; RefetchStep;
        ModalCloseStep]
  /\ ordered_steps (effects (run onTenantAddSubmit Resolved page_add_confirm))
     <> spec_order.
Proof.
  split; [reflexivity |]. split; [reflexivity |]. discriminate.
Qed.

(** The amended C4 on the sample pages: the remove call settles on
    another page than it was issued on, the add call on the same page. *)
Lemma submit_effect_order_witness :
  map kind_of
      (effects (settle Resolved
                  (with_page page_no_property
                     (invoke onTenantRemoveSubmit
                        (quiet page_remove_confirm)))))
  = spec_order
  /\ map kind_of
         (effects (settle Resolved
                     (with_page page_add_confirm
                        (invoke onTenantAddSubmit (quiet page_add_confirm)))))
     = [ApiCallStep; NotificationStep; StateResetStep; RefetchStep;
        WidgetResetStep; ModalCloseStep].
Proof.
  destruct (submit_effect_order Resolved page_remove_confirm page_no_property)
    as [Hremove _].
  destruct (submit_effect_order Resolved page_add_confirm page_add_confirm)
    as [_ Hadd].
  split.
  - apply (Hremove bob "7"%char EmptyString); reflexivity.
  - destruct (Hadd villa jane "1" eq_refl eq_refl eq_refl)
      as (rest & Hkinds & Hrest).
    rewrite Hkinds, (Hrest "1" eq_refl). reflexivity.
Defined.

(** C7 fails as stated: the success notification of the add on the sample
    page names the tenant, Jane Doe, and does not name the property,
    Sunset Villa; nor does the one of the remove. *)
Lemma success_message_omits_property :
  notifications (effects (run onTenantAddSubmit Resolved page_add_confirm))
  = [ShowSuccess "Tenant added" "Jane Doe was added to the property."]
  /\ contains (Tenant.name jane) "Jane Doe was added to the property." = true
  /\ contains (Property.name villa) "Jane Doe was added to the property."
     = false
  /\ notifications
       (effects (run onTenantRemoveSubmit Resolved page_remove_confirm))
     = [ShowSuccess "Tenant removed" "Bob Ray was removed from the property"]
  /\ contains (Property.name villa) "Bob Ray was removed from the property"
     = false.
Proof.
  repeat split.
Qed.

(** The amended C7 on the sample page. *)
Lemma submit_notifications_witness :
  notifications (effects (run onTenantAddSubmit Resolved page_add_confirm))
  = [ShowSuccess "Tenant added" "Jane Doe was added to the property."]
  /\ notifications
       (effects (run onTenantRemoveSubmit (Rejected "409 Conflict")
                     page_remove_confirm))
     = [ShowError "Error"
          "An error occurred while trying to remove the tenant from the property"].
Proof.
  destruct (submit_notifications page_add_confirm) as [Hadd _].
  destruct (submit_notifications page_remove_confirm) as [_ Hremove].
  split.
  - apply (Hadd villa jane "1"); reflexivity.
  - apply (Hremove bob "7"%char EmptyString); reflexivity.
Defined.

(* ================================================================= *)
(** ** Pre-population of the edit form *)

Section EditForm.

Lemma split_not_nil (s : string) : split s <> [].
Proof.
  induction s as [| c s IH]; simpl; [discriminate |].
  destruct (is_space c); [discriminate |].
  destruct (split s); [contradiction | discriminate].
Qed.

(** A name without a space is a single field. *)
Lemma split_no_space (s : string) :
  has_space s = false -> split s = [s].
Proof.
  induction s as [| c s IH]; simpl; [reflexivity |].
  intros Hns. apply orb_false_iff in Hns. destruct Hns as [Hc Hs].
  rewrite Hc, (IH Hs). reflexivity.
Qed.

(** A field without a space, a space, and the rest: the field, then the
    fields of the rest. *)
Lemma split_field_space (field rest : string) :
  has_space field = false ->
  split (field ++ String " " rest)%string = field :: split rest.
Proof.
  induction field as [| c field IH]; simpl; [reflexivity |].
  intros Hns. apply orb_false_iff in Hns. destruct Hns as [Hc Hs].
  rewrite Hc, (IH Hs). reflexivity.
Qed.

(** C9, as the code has it.  The form takes the first two fields of the
    split of the name at each space character: for a name made of a field
    without a space, one space and a second field without a space, alone
    or followed by a space and anything, [first_name] is the first field
    and [last_name] the second, and what follows is dropped; so "Jane Doe
    Smith" gives "Jane" and "Doe". *)
Theorem splitDisplayName_first_two_fields (first second rest : string) :
  has_space first = false ->
  has_space second = false ->
  splitDisplayName (first ++ " " ++ second)%string
  = FormValues.mk (Some first) (Some second)
  /\ splitDisplayName (first ++ " " ++ second ++ " " ++ rest)%string
     = FormValues.mk (Some first) (Some second)
  /\ splitDisplayName "Jane Doe Smith"
     = FormValues.mk (Some "Jane") (Some "Doe").
Proof.
  intros Hfirst Hsecond. unfold splitDisplayName.
  change (" " ++ second)%string with (String " " second).
  change (" " ++ second ++ " " ++ rest)%string
    with (String " " (second ++ String " " rest)).
  split; [| split].
  - rewrite (split_field_space first second Hfirst).
    rewrite (split_no_space second Hsecond). reflexivity.
  - rewrite (split_field_space first _ Hfirst).
    rewrite (split_field_space second rest Hsecond). reflexivity.
  - reflexivity.
Qed.

(** C10.  For a tenant whose name holds no space the effect resets the
    form to the whole name as [first_name] and no [last_name]; with these
    values the form is not valid and the submit button is disabled, and
    it stays so while the last name typed is empty; once the user has
    typed a last name (the name itself not being empty) the form is
    valid. *)
Theorem single_token_name_has_no_last_name
  (tenant : Tenant.t) (form : FormValues.t) :
  has_space (Tenant.name tenant) = false ->
  let values := EditTenantModal_effect (Some tenant) form in
  values = FormValues.mk (Some (Tenant.name tenant)) None
  /\ isValid values = false
  /\ (forall isSubmitting current,
         isDisabled values isSubmitting current = true)
  /\ (forall isSubmitting current,
         isDisabled (type_last_name "" values) isSubmitting current = true)
  /\ (forall c text,
         Tenant.name tenant <> "" ->
         isValid (type_last_name (String c text) values) = true
         /\ isDisabled (type_last_name (String c text) values)
                       false (Some tenant) = false).
Proof.
  intros Hns. cbv zeta. unfold EditTenantModal_effect, splitDisplayName.
  rewrite (split_no_space _ Hns). simpl nth_error.
  unfold isDisabled, isValid, type_last_name. simpl.
  rewrite andb_false_r. simpl.
  repeat split.
  - destruct (Tenant.name tenant); [contradiction | reflexivity].
  - destruct (Tenant.name tenant); [contradiction | reflexivity].
Qed.

End EditForm.

(** C9 fails as stated: a tab delimits two tokens and does not split the
    name, and two spaces in a row give an empty second field. *)
Lemma splitDisplayName_is_not_by_whitespace_tokens :
  let name := ("Jane" ++ tab ++ "Doe")%string in
  spec_splitDisplayName name = FormValues.mk (Some "Jane") (Some "Doe")
  /\ splitDisplayName name = FormValues.mk (Some name) None
  /\ splitDisplayName name <> spec_splitDisplayName name
  /\ spec_splitDisplayName "Jane  Doe"
     = FormValues.mk (Some "Jane") (Some "Doe")
  /\ splitDisplayName "Jane  Doe" = FormValues.mk (Some "Jane") (Some "").
Proof.
  cbv zeta. repeat split. discriminate.
Qed.

(** The amended C9 on a name of two fields and on one of three. *)
Lemma splitDisplayName_first_two_fields_witness :
  splitDisplayName "Ana Lima" = FormValues.mk (Some "Ana") (Some "Lima")
  /\ splitDisplayName "Ana Lima de Sousa"
     = FormValues.mk (Some "Ana") (Some "Lima").
Proof.
  destruct (splitDisplayName_first_two_fields "Ana" "Lima" "de Sousa"
              eq_refl eq_refl) as (Htwo & Hmore & _).
  split; [exact Htwo | exact Hmore].
Defined.

(** C10 on the sample tenant Carol. *)
Lemma single_token_name_has_no_last_name_witness :
  EditTenantModal_effect (Some carol) (FormValues.mk (Some "") (Some ""))
  = FormValues.mk (Some "Carol") None
  /\ isValid (type_last_name "Diaz"
                (EditTenantModal_effect (Some carol)
                   (FormValues.mk (Some "") (Some "")))) = true.
Proof.
  destruct (single_token_name_has_no_last_name
              carol (FormValues.mk (Some "") (Some "")) eq_refl)
    as (Hvalues & _ & _ & _ & Htyped).
  split; [exact Hvalues |].
  apply (Htyped "D"%char "iaz"). discriminate.
Defined.

(* ================================================================= *)
(** ** More on the candidates and on the tenant select *)

Section MoreCandidates.

Lemma includes_cons (i : Z) (ids : list Z) (x : Z) :
  includes (i :: ids) x = Z.eqb i x || includes ids x.
Proof. reflexivity. Qed.

(** Two lists of ids with the same elements are the same to
    [includes]. *)
Lemma includes_same_elements (ids ids' : list Z) (x : Z) :
  (forall i, In i ids' <-> In i ids) -> includes ids' x = includes ids x.
Proof.
  intros Hsame. apply eq_true_iff_eq.
  rewrite !includes_In. apply Hsame.
Qed.

(** X1.  The candidates after a tenant [t] has been assigned.  When the
    ids of the tenants of [P'] are those of [P] and the id of [t], the
    candidates for [P'] are the candidates for [P] without the tenants
    that have the id of [t], in the same order; [t] is not one of them,
    and every candidate for [P'] was a candidate for [P]. *)
Theorem tenantOptions_after_assignment
  (allTenants : list Tenant.t) (P P' : Property.t) (t : Tenant.t) :
  (forall i, In i (map Tenant.id (Property.tenants P'))
             <-> i = Tenant.id t \/ In i (map Tenant.id (Property.tenants P)))
  ->
  tenantOptions (Some allTenants) (Some P')
  = filter (fun c => negb (Z.eqb (Tenant.id t) (Tenant.id c)))
           (tenantOptions (Some allTenants) (Some P))
  /\ ~ In t (tenantOptions (Some allTenants) (Some P'))
  /\ (forall c, In c (tenantOptions (Some allTenants) (Some P')) ->
                In c (tenantOptions (Some allTenants) (Some P))).
Proof.
  intros Hids.
  assert (Hinc : forall x,
             includes (map Tenant.id (Property.tenants P')) x
             = includes (Tenant.id t :: map Tenant.id (Property.tenants P)) x).
  { intros x. apply includes_same_elements. intros i. rewrite Hids.
    simpl. intuition congruence. }
  assert (Heq : tenantOptions (Some allTenants) (Some P')
                = filter (fun c => negb (Z.eqb (Tenant.id t) (Tenant.id c)))
                         (tenantOptions (Some allTenants) (Some P))).
  { unfold tenantOptions. induction allTenants as [| c l IH]; simpl.
    - reflexivity.
    - rewrite Hinc, includes_cons, negb_orb.
      destruct (includes (map Tenant.id (Property.tenants P)) (Tenant.id c));
        simpl.
      + rewrite andb_false_r. apply IH.
      + rewrite andb_true_r.
        destruct (Z.eqb (Tenant.id t) (Tenant.id c)); simpl;
          now rewrite IH. }
  split; [exact Heq |]. split.
  - rewrite Heq. intros Hin. apply filter_In in Hin.
    destruct Hin as [_ Hneq]. now rewrite Z.eqb_refl in Hneq.
  - intros c. rewrite Heq. intros Hin. apply filter_In in Hin. tauto.
Qed.

(** X2.  Whenever the tenant select is enabled, the tenants are not
    loading, [selectedTenant] is [null], the property is fetched and some
    fetched tenant has an id that no tenant of the property has. *)
Theorem select_enabled_only_if (st : Page.t) :
  select_isDisabled st = false ->
  Page.isTenantsLoading st = false
  /\ Page.selectedTenant st = None
  /\ exists P t,
      Page.property st = Some P
      /\ In t (Page.tenants st)
      /\ ~ In (Tenant.id t) (map Tenant.id (Property.tenants P)).
Proof.
  unfold select_isDisabled. rewrite !orb_false_iff.
  intros [[Hload Hopts] Hsel]. split; [assumption |]. split.
  - now destruct (Page.selectedTenant st).
  - destruct (Page.property st) as [P |] eqn:HP.
    + destruct (tenantOptions (Some (Page.tenants st)) (Some P))
        as [| t l] eqn:Ht; [discriminate |].
      assert (Hin : In t (tenantOptions (Some (Page.tenants st)) (Some P)))
        by (rewrite Ht; now left).
      unfold tenantOptions in Hin. apply filter_In in Hin.
      destruct Hin as [Hin Hk]. apply includes_not_In in Hk.
      exists P, t. auto.
    + simpl in Hopts. discriminate.
Qed.

End MoreCandidates.

(** X2 on the sample page where the option of Carol has just been
    chosen. *)
Lemma select_enabled_only_if_witness :
  Page.isTenantsLoading page_option_chosen = false
  /\ Page.selectedTenant page_option_chosen = None
  /\ exists P t,
      Page.property page_option_chosen = Some P
      /\ In t (Page.tenants page_option_chosen)
      /\ ~ In (Tenant.id t) (map Tenant.id (Property.tenants P)).
Proof.
  apply select_enabled_only_if. reflexivity.
Defined.

(** X1 on the sample data: once Jane is a tenant of the villa beside Bob,
    only Carol is left to add. *)
Lemma tenantOptions_after_assignment_witness :
  tenantOptions (Some [jane; bob; carol])
    (Some (Property.mk 7 "Sunset Villa" "Lisbon" "Two floors" (usd 250000)
             (Some (usd 5000)) [] [bob; jane]))
  = filter (fun c => negb (Z.eqb (Tenant.id jane) (Tenant.id c)))
           (tenantOptions (Some [jane; bob; carol]) (Some villa)).
Proof.
  apply (tenantOptions_after_assignment [jane; bob; carol] villa
           (Property.mk 7 "Sunset Villa" "Lisbon" "Two floors" (usd 250000)
              (Some (usd 5000)) [] [bob; jane]) jane).
  intros i. simpl. intuition congruence.
Defined.

(* ================================================================= *)
(** ** More on the expense total *)

Section MoreExpenses.

Lemma spec_month_total_from_app
  (today : JsDate) (acc : float) (es es' : list Expense.t) :
  spec_month_total_from today acc (es ++ es')
  = spec_month_total_from today (spec_month_total_from today acc es) es'.
Proof.
  revert acc. induction es as [| e es IH]; intros acc; simpl;
    [reflexivity |].
  destruct (Expense.date e) as [y m |], today as [y' m' |]; try apply IH.
  destruct (andb (Z.eqb m m') (Z.eqb y y')); apply IH.
Qed.

(** The step of the running sum at one expense. *)
Lemma spec_month_total_from_cons
  (y m : Z) (acc : float) (e : Expense.t) (es : list Expense.t) :
  (Expense.date e = ValidDate y m ->
   spec_month_total_from (ValidDate y m) acc (e :: es)
   = spec_month_total_from (ValidDate y m)
       (acc + Money.amount (Expense.amount e))%float es)
  /\ (Expense.date e <> ValidDate y m ->
      spec_month_total_from (ValidDate y m) acc (e :: es)
      = spec_month_total_from (ValidDate y m) acc es).
Proof.
  simpl. destruct (Expense.date e) as [y0 m0 |].
  - split.
    + intros Heq. inversion Heq; subst. now rewrite !Z.eqb_refl.
    + intros Hneq.
      destruct (Z.eqb_spec m0 m), (Z.eqb_spec y0 y); simpl; try reflexivity.
      subst. now elim Hneq.
  - split; [discriminate | reflexivity].
Qed.

(** Expenses of other months add nothing. *)
Lemma spec_month_total_from_others
  (y m : Z) (acc : float) (es : list Expense.t) :
  Forall (fun x => Expense.date x <> ValidDate y m) es ->
  spec_month_total_from (ValidDate y m) acc es = acc.
Proof.
  induction 1 as [| e es He _ IH]; [reflexivity |].
  destruct (spec_month_total_from_cons y m acc e es) as [_ Hout].
  now rewrite (Hout He).
Qed.

(** X3.  One more expense, wherever it stands in the collection, leaves
    the total as it was when its date does not lie in the year and month
    of the current date: an expense of another month, of the same month
    of another year, or with an invalid date does not count.  One more
    expense of the current month that stands after all the other expenses
    of the current month adds its amount to the total, in double
    arithmetic. *)
Theorem expenses_with_one_more
  (P P' : Property.t) (y m : Z) (before after : list Expense.t)
  (e : Expense.t) :
  Property.expenses P = before ++ after ->
  Property.expenses P' = before ++ e :: after ->
  exists total,
    expenses (ValidDate y m) (Some P) = Some total
    /\ (Expense.date e <> ValidDate y m ->
        expenses (ValidDate y m) (Some P') = Some total)
    /\ (Expense.date e = ValidDate y m ->
        Forall (fun x => Expense.date x <> ValidDate y m) after ->
        expenses (ValidDate y m) (Some P')
        = Some (total + Money.amount (Expense.amount e))%float).
Proof.
  intros HP HP'. rewrite !expenses_total, HP, HP'.
  eexists. split; [reflexivity |].
  unfold spec_month_total. rewrite !spec_month_total_from_app.
  destruct (spec_month_total_from_cons
              y m (spec_month_total_from (ValidDate y m) 0 before) e after)
    as [Hin Hout].
  split.
  - intros Hdate. now rewrite (Hout Hdate).
  - intros Hdate Hafter. rewrite (Hin Hdate).
    now rewrite !(spec_month_total_from_others y m _ after Hafter).
Qed.

End MoreExpenses.

(** X3 on the sample property: an expense of May 2024 put between the two
    expenses of the villa, before the one of April, raises the total of
    May 2024 by its amount. *)
Lemma expenses_with_one_more_witness :
  exists total,
    expenses may_2024 (Some villa) = Some total
    /\ expenses may_2024
         (Some (Property.mk 7 "Sunset Villa" "Lisbon" "Two floors"
                  (usd 250000) (Some (usd 5000))
                  [Expense.mk (usd 100) (ValidDate 2024 4);
                   Expense.mk (usd 30) (ValidDate 2024 4);
                   Expense.mk (usd 50) (ValidDate 2024 3)]
                  [bob]))
       = Some (total + 30)%float.
Proof.
  destruct (expenses_with_one_more villa
              (Property.mk 7 "Sunset Villa" "Lisbon" "Two floors"
                 (usd 250000) (Some (usd 5000))
                 [Expense.mk (usd 100) (ValidDate 2024 4);
                  Expense.mk (usd 30) (ValidDate 2024 4);
                  Expense.mk (usd 50) (ValidDate 2024 3)]
                 [bob])
              2024 4
              [Expense.mk (usd 100) (ValidDate 2024 4)]
              [Expense.mk (usd 50) (ValidDate 2024 3)]
              (Expense.mk (usd 30) (ValidDate 2024 4))
              eq_refl eq_refl) as (total & Htotal & _ & Hin).
  exists total. split; [exact Htotal |].
  apply Hin; [reflexivity |].
  constructor; [simpl; congruence | constructor].
Defined.

(* ================================================================= *)
(** ** More on the handlers *)

Section MoreHandlers.

(** X6.  Cancelling the add confirmation makes no call and no
    notification: it clears the selection and closes the add modal, after
    which neither submit handler does anything.  Unlike a submission it
    leaves the value of the select as it is; the fetched data and so the
    candidates are untouched. *)
Theorem add_cancel_disarms (st : Page.t) :
  exists st',
    onTenantAddCancel st
    = (Normal tt, st', [SetSelectedTenant None; CloseConfirmAddModal])
    /\ onTenantAddSubmit st' = Returned
    /\ onTenantRemoveSubmit st' = Returned
    /\ Page.selectRef_current st' = Page.selectRef_current st
    /\ page_tenantOptions st' = page_tenantOptions st
    /\ Page.isConfirmRemoveModalOpen st' = Page.isConfirmRemoveModalOpen st.
Proof.
  destruct st as [prop rid ts loading sel ref addOpen removeOpen].
  eexists. split; [reflexivity |].
  repeat split. simpl. now destruct prop.
Qed.

(** X7.  Closing the remove confirmation without confirming only closes
    the modal: the tenant stays selected, so the tenant select stays
    disabled, and [onTenantRemoveSubmit] would still issue the call for
    that tenant. *)
Theorem remove_cancel_keeps_selection (st : Page.t) (t : Tenant.t) :
  Page.selectedTenant st = Some t ->
  exists st',
    closeConfirmRemoveModal st = (Normal tt, st', [CloseConfirmRemoveModal])
    /\ Page.isConfirmRemoveModalOpen st' = false
    /\ Page.selectedTenant st' = Some t
    /\ select_isDisabled st' = true
    /\ (forall c id outcome,
           Page.id st = Some (String c id) ->
           api_calls (effects (run onTenantRemoveSubmit outcome st'))
           = [removeTenant (String c id) (Tenant.id t)]).
Proof.
  destruct st as [prop rid ts loading sel ref addOpen removeOpen].
  simpl. intros Hsel. subst. eexists. split; [reflexivity |].
  repeat split.
  - unfold select_isDisabled. simpl. apply orb_true_r.
  - intros c id outcome Hid. subst. destruct outcome; reflexivity.
Qed.

(** X8.  A run of a submit handler issues one call or none, and never a
    second one after a rejection.  [onTenantAddSubmit] issues none exactly
    when the property, the selected tenant or the mounted select is
    missing, and its call is for the id of the property and the id of the
    selected tenant; [onTenantRemoveSubmit] issues none exactly when the
    selected tenant is missing or the route [id] is missing or empty, and
    its call is for the route [id] and the id of the selected tenant: it
    needs neither the property nor the select. *)
Theorem run_issues_one_call_or_none (outcome : Outcome) (st : Page.t) :
  let added := api_calls (effects (run onTenantAddSubmit outcome st)) in
  let removed := api_calls (effects (run onTenantRemoveSubmit outcome st)) in
  (added = [] <-> Page.property st = None
                  \/ Page.selectedTenant st = None
                  \/ Page.selectRef_current st = None)
  /\ (forall P t, Page.property st = Some P ->
                  Page.selectedTenant st = Some t ->
                  Page.selectRef_current st <> None ->
                  added = [addTenant (Property.id P) (Tenant.id t)])
  /\ (removed = [] <-> Page.selectedTenant st = None
                       \/ Page.id st = None
                       \/ Page.id st = Some "")
  /\ (forall t c id, Page.selectedTenant st = Some t ->
                     Page.id st = Some (String c id) ->
                     removed = [removeTenant (String c id) (Tenant.id t)]).
Proof.
  destruct st as [prop rid ts loading sel ref addOpen removeOpen].
  cbv zeta. simpl Page.property. simpl Page.selectedTenant.
  simpl Page.selectRef_current. simpl Page.id.
  split; [| split; [| split]].
  - destruct prop as [P |], sel as [t |], ref as [v |], outcome;
      (split; [intros H; try discriminate H; auto
              | intros [H | [H | H]]; try discriminate H; reflexivity]).
  - intros P t HP Ht Href. subst.
    destruct ref as [v |]; [| now elim Href].
    destruct outcome; reflexivity.
  - destruct sel as [t |], rid as [[| c id] |], outcome;
      (split; [intros H; try discriminate H; auto
              | intros [H | [H | H]]; try discriminate H; reflexivity]).
  - intros t c id Ht Hid. subst. destruct outcome; reflexivity.
Qed.


End MoreHandlers.

(** X7 on the sample page of the remove confirmation. *)
Lemma remove_cancel_keeps_selection_witness :
  exists st',
    closeConfirmRemoveModal page_remove_confirm
    = (Normal tt, st', [CloseConfirmRemoveModal])
    /\ Page.selectedTenant st' = Some bob
    /\ select_isDisabled st' = true.
Proof.
  destruct (remove_cancel_keeps_selection page_remove_confirm bob eq_refl)
    as (st' & Hclose & _ & Hsel & Hdisabled & _).
  exists st'. auto.
Defined.

(** X8 on the sample pages. *)
Lemma run_issues_one_call_or_none_witness :
  api_calls (effects (run onTenantAddSubmit (Rejected "500") page_add_confirm))
  = [addTenant 7 1]
  /\ api_calls (effects (run onTenantAddSubmit Resolved page_no_property))
     = [].
Proof.
  split.
  - destruct (run_issues_one_call_or_none (Rejected "500") page_add_confirm)
      as (_ & Hadd & _).
    apply (Hadd villa jane); [reflexivity | reflexivity | discriminate].
  - destruct (run_issues_one_call_or_none Resolved page_no_property)
      as (Hnone & _).
    apply Hnone. left. reflexivity.
Defined.

(* ================================================================= *)
(** ** Selecting a tenant *)

Section Selecting.

Lemma strict_eq_Num (z : Z) (value : JsNum) :
  strict_eq (Num z) value = true <-> value = Num z.
Proof.
  destruct value as [z' |]; simpl.
  - rewrite Z.eqb_eq. split; [now intros -> | now intros [= ->]].
  - split; discriminate.
Qed.

(** The first candidate with a given id is found; it is the only one when
    the ids are all different. *)
Lemma find_option_of_candidate (options : list Tenant.t) (t : Tenant.t) :
  In t options ->
  exists t' before after,
    find_option (Num (Tenant.id t)) options = Some t'
    /\ options = before ++ t' :: after
    /\ (forall c, In c before -> Tenant.id c <> Tenant.id t)
    /\ Tenant.id t' = Tenant.id t
    /\ (NoDup (map Tenant.id options) -> t' = t).
Proof.
  unfold find_option.
  induction options as [| c l IH]; simpl; [contradiction |].
  intros Hin.
  destruct (Z.eqb_spec (Tenant.id c) (Tenant.id t)) as [Heq | Hneq].
  - exists c, [], l.
    split; [reflexivity |]. split; [reflexivity |].
    split; [intros c' [] |]. split; [assumption |].
    intros Hnd. destruct Hin as [-> | Hin]; [reflexivity |].
    inversion Hnd as [| ? ? Hnotin _]; subst. exfalso. apply Hnotin.
    rewrite Heq. now apply in_map.
  - destruct Hin as [-> | Hin]; [now elim Hneq |].
    destruct (IH Hin) as (t' & before & after & Hfind & Hl & Hbefore
                          & Hid & Huniq).
    exists t', (c :: before), after.
    split; [assumption |]. split; [simpl; now rewrite Hl |].
    split; [| split; [assumption |]].
    + intros c' [<- | Hc']; [assumption | now apply Hbefore].
    + intros Hnd. apply Huniq. now inversion Hnd.
Qed.

(** X10.  Whenever [onChange] of the select selects a tenant, that tenant
    is a candidate: it is one of the fetched tenants, its id is the value
    chosen and no tenant of the property has that id.  The add modal is
    then open and the select disabled, and confirming issues the add call
    for the property and that tenant. *)
Theorem select_onChange_selects_candidate
  (value : JsNum) (st st' : Page.t) :
  select_onChange value st = Some st' ->
  exists P t,
    Page.property st = Some P
    /\ Page.selectedTenant st' = Some t
    /\ value = Num (Tenant.id t)
    /\ In t (Page.tenants st)
    /\ ~ In (Tenant.id t) (map Tenant.id (Property.tenants P))
    /\ Page.isConfirmAddModalOpen st' = true
    /\ select_isDisabled st' = true
    /\ (forall v outcome,
           Page.selectRef_current st = Some v ->
           api_calls (effects (run onTenantAddSubmit outcome st'))
           = [addTenant (Property.id P) (Tenant.id t)]).
Proof.
  unfold select_onChange, page_tenantOptions.
  destruct (find_option value _) as [t |] eqn:Hfind; [| discriminate].
  intros [= <-]. unfold find_option in Hfind.
  apply find_some in Hfind. destruct Hfind as [Hin Hvalue].
  apply strict_eq_Num in Hvalue.
  destruct st as [prop rid ts loading sel ref addOpen removeOpen].
  simpl in Hin. destruct prop as [P |]; [| contradiction].
  unfold tenantOptions in Hin. apply filter_In in Hin.
  destruct Hin as [Hin Hfree]. apply includes_not_In in Hfree.
  exists P, t. repeat split; auto.
  - unfold select_isDisabled. simpl. apply orb_true_r.
  - intros v outcome Href. simpl in Href. subst.
    destruct outcome; reflexivity.
Qed.

(** X11.  Choosing the option of a candidate selects the first candidate
    of the list that has that id: no candidate before it has the id.  It
    is the candidate itself when the fetched tenants all have different
    ids.  For a value that is not a number the [find] of the handler
    matches no candidate. *)
Theorem select_onChange_of_candidate (st : Page.t) (t : Tenant.t) :
  In t (page_tenantOptions st) ->
  (exists t' before after,
      select_onChange (Num (Tenant.id t)) st
      = Some (openConfirmAddModal (select_tenant t' st))
      /\ page_tenantOptions st = before ++ t' :: after
      /\ (forall c, In c before -> Tenant.id c <> Tenant.id t)
      /\ Tenant.id t' = Tenant.id t)
  /\ (NoDup (map Tenant.id (Page.tenants st)) ->
      select_onChange (Num (Tenant.id t)) st
      = Some (openConfirmAddModal (select_tenant t st)))
  /\ find_option NaN (page_tenantOptions st) = None.
Proof.
  intros Hin.
  destruct (find_option_of_candidate _ _ Hin)
    as (t' & before & after & Hfind & Hl & Hbefore & Hid & Huniq).
  split; [| split].
  - exists t', before, after. unfold select_onChange. rewrite Hfind. auto.
  - intros Hnd. unfold select_onChange. rewrite Hfind.
    rewrite Huniq; [reflexivity |].
    unfold page_tenantOptions, tenantOptions.
    destruct (Page.property st); [| constructor].
    now apply NoDup_map_filter.
  - unfold find_option.
    assert (Hnone : forall l,
               find (fun c => strict_eq (Num (Tenant.id c)) NaN) l = None)
      by (induction l; simpl; auto).
    apply Hnone.
Qed.

(** X12.  A click on the delete icon of a card selects the tenant of the
    card, whatever was selected before, and opens the remove modal;
    confirming then issues the remove call for the route [id] and that
    tenant, and whatever its outcome the selection is cleared and the
    modal closed.  Nothing checks that the tenant is one of the
    property. *)
Theorem delete_click_then_confirm
  (outcome : Outcome) (st : Page.t) (t : Tenant.t) (c : ascii) (id : string) :
  Page.id st = Some (String c id) ->
  let clicked := onDeleteClick t st in
  let w := run onTenantRemoveSubmit outcome clicked in
  Page.selectedTenant clicked = Some t
  /\ Page.isConfirmRemoveModalOpen clicked = true
  /\ select_isDisabled clicked = true
  /\ api_calls (effects w) = [removeTenant (String c id) (Tenant.id t)]
  /\ Page.selectedTenant (page w) = None
  /\ Page.isConfirmRemoveModalOpen (page w) = false
  /\ workflow w = Idle.
Proof.
  destruct st as [prop rid ts loading sel ref addOpen removeOpen].
  simpl. intros Hid. subst.
  split; [reflexivity |]. split; [reflexivity |].
  split; [unfold select_isDisabled; simpl; apply orb_true_r |].
  destruct outcome; repeat split.
Qed.


End Selecting.

(** X10 on the sample data: on the page of the villa with nothing
    selected, the value 3 selects Carol. *)
Lemma select_onChange_selects_candidate_witness :
  exists P t,
    Page.property page_remove_confirm = Some P
    /\ Page.selectedTenant
         (openConfirmAddModal (select_tenant carol page_remove_confirm))
       = Some t
    /\ Num 3 = Num (Tenant.id t).
Proof.
  destruct (select_onChange_selects_candidate
              (Num 3) page_remove_confirm
              (openConfirmAddModal (select_tenant carol page_remove_confirm))
              eq_refl)
    as (P & t & HP & Ht & Hvalue & _).
  exists P, t. auto.
Defined.

(** X11 on the sample data. *)
Lemma select_onChange_of_candidate_witness :
  select_onChange (Num (Tenant.id carol)) page_add_confirm
  = Some (openConfirmAddModal (select_tenant carol page_add_confirm)).
Proof.
  destruct (select_onChange_of_candidate page_add_confirm carol)
    as (_ & Hunique & _).
  - simpl. auto.
  - apply Hunique. repeat constructor; simpl; intuition discriminate.
Defined.

(** X12 on the sample page: a click on the card of Bob, then the
    confirmation. *)
Lemma delete_click_then_confirm_witness :
  api_calls
    (effects (run onTenantRemoveSubmit Resolved
                (onDeleteClick bob page_add_confirm)))
  = [removeTenant "7" 2].
Proof.
  apply (delete_click_then_confirm Resolved page_add_confirm bob
           "7"%char EmptyString eq_refl).
Defined.


(* ================================================================= *)
(** ** The chart as rendered *)

(** X14.  When the page renders the chart, the property is fetched and
    has a monthly revenue, and neither value of the chart is a fallback:
    the first is the amount of the monthly revenue and the second the
    total of the expenses of the current month. *)
Theorem rendered_chart_shows_fetched_values
  (isPropertyError : bool) (property : option Property.t) (today : JsDate) :
  chart_is_rendered isPropertyError property = true ->
  exists P r total,
    property = Some P
    /\ Property.monthly_revenue P = Some r
    /\ isPropertyError = false
    /\ expenses today property = Some total
    /\ total = spec_month_total today (Property.expenses P)
    /\ map (fun entry => (ChartEntry.name entry, ChartEntry.value entry))
           (chartData (revenue property) (expenses today property))
       = [("Revenue", Money.amount r); ("Expenses", total)].
Proof.
  unfold chart_is_rendered. intros Hrendered.
  apply andb_true_iff in Hrendered. destruct Hrendered as [Herr Hrev].
  apply negb_true_iff in Herr.
  destruct property as [P |]; [| discriminate].
  simpl in Hrev. destruct (Property.monthly_revenue P) as [r |] eqn:Hr;
    [| discriminate].
  exists P, r, (spec_month_total today (Property.expenses P)).
  rewrite expenses_total. simpl. rewrite Hr. repeat split; auto.
Qed.

(** X14 on the sample property. *)
Lemma rendered_chart_shows_fetched_values_witness :
  exists P r total,
    Some villa = Some P
    /\ Property.monthly_revenue P = Some r
    /\ false = false
    /\ expenses may_2024 (Some villa) = Some total
    /\ total = spec_month_total may_2024 (Property.expenses P)
    /\ map (fun entry => (ChartEntry.name entry, ChartEntry.value entry))
           (chartData (revenue (Some villa)) (expenses may_2024 (Some villa)))
       = [("Revenue", Money.amount r); ("Expenses", total)].
Proof.
  apply (rendered_chart_shows_fetched_values false (Some villa) may_2024).
  reflexivity.
Defined.

(* ================================================================= *)
(** ** More on the edit form *)

Section MoreEditForm.

Lemma prefix_self (s : string) : String.prefix s s = true.
Proof.
  induction s as [| c s IH]; simpl; [reflexivity |].
  destruct (ascii_dec c c) as [_ | Hneq]; [assumption | now elim Hneq].
Qed.

Lemma is_space_true (c : ascii) : is_space c = true -> c = " "%char.
Proof. unfold is_space. apply Ascii.eqb_eq. Qed.

(** Joining the fields of a split with spaces gives the string back. *)
Lemma join_split (s : string) : join (split s) = s.
Proof.
  induction s as [| c s IH]; [reflexivity |].
  simpl split. destruct (is_space c) eqn:Hc.
  - apply is_space_true in Hc. subst c.
    destruct (split s) as [| f tl] eqn:Hs; [now elim (split_not_nil s) |].
    change (join (EmptyString :: f :: tl)) with (String " " (join (f :: tl))).
    now rewrite IH.
  - destruct (split s) as [| f tl] eqn:Hs; [now elim (split_not_nil s) |].
    destruct tl as [| x tl'].
    + simpl in *. now rewrite IH.
    + change (join (String c f :: x :: tl'))
        with (String c (join (f :: x :: tl'))).
      now rewrite IH.
Qed.

Lemma split_fields_no_space (s : string) :
  Forall (fun field => has_space field = false) (split s).
Proof.
  induction s as [| c s IH]; simpl.
  - repeat constructor.
  - destruct (is_space c) eqn:Hc.
    + constructor; [reflexivity | assumption].
    + destruct (split s) as [| f tl]; [repeat constructor; simpl; now rewrite Hc |].
      inversion IH; subst. constructor; [| assumption].
      simpl. rewrite Hc. assumption.
Qed.

Lemma length_split (s : string) :
  List.length (split s) = S (count_spaces s).
Proof.
  induction s as [| c s IH]; simpl; [reflexivity |].
  destruct (is_space c); simpl; [now rewrite IH |].
  destruct (split s) as [| f tl] eqn:Hs; [now elim (split_not_nil s) |].
  simpl in *. assumption.
Qed.

Lemma has_space_count (s : string) :
  has_space s = false <-> count_spaces s = O.
Proof.
  induction s as [| c s IH]; simpl; [tauto |].
  destruct (is_space c); simpl; [split; discriminate | assumption].
Qed.

(** The shape of a split with a second field. *)
Lemma split_two_fields (name first last : string) (tl : list string) :
  split name = first :: last :: tl ->
  has_space first = false
  /\ has_space last = false
  /\ match tl with
     | [] => name = (first ++ String " " last)%string
             /\ count_spaces name = 1%nat
     | x :: tl' =>
         name = (first ++ String " " (last ++ String " " (join (x :: tl'))))%string
         /\ (1 < count_spaces name)%nat
     end.
Proof.
  intros Hsplit.
  pose proof (split_fields_no_space name) as Hfields.
  pose proof (join_split name) as Hjoin.
  pose proof (length_split name) as Hlen.
  rewrite Hsplit in Hfields, Hjoin, Hlen.
  pose proof (Forall_inv Hfields) as Hfirst.
  pose proof (Forall_inv (Forall_inv_tail Hfields)) as Hlast.
  simpl in Hfirst, Hlast.
  split; [assumption |]. split; [assumption |].
  destruct tl as [| x tl']; simpl in Hlen.
  - split; [now rewrite <- Hjoin | lia].
  - split; [now rewrite <- Hjoin | lia].
Qed.

(** X15.  What the form is reset to, for every name: [first_name] is
    always a string, without a space, that the name starts with;
    [last_name], when there is one, has no space either, and there is none
    exactly when the name has no space.  The split has one field more
    than the name has spaces and joined with spaces gives the name
    back. *)
Theorem splitDisplayName_fields (name : string) :
  (exists first,
      FormValues.first_name (splitDisplayName name) = Some first
      /\ has_space first = false
      /\ String.prefix first name = true)
  /\ (forall last,
         FormValues.last_name (splitDisplayName name) = Some last ->
         has_space last = false)
  /\ (FormValues.last_name (splitDisplayName name) = None
      <-> has_space name = false)
  /\ List.length (split name) = S (count_spaces name)
  /\ join (split name) = name.
Proof.
  pose proof (split_fields_no_space name) as Hfields.
  pose proof (join_split name) as Hjoin.
  pose proof (length_split name) as Hlen.
  unfold splitDisplayName. simpl FormValues.first_name.
  simpl FormValues.last_name.
  destruct (split name) as [| first tl] eqn:Hs;
    [now elim (split_not_nil name) |].
  pose proof (Forall_inv Hfields) as Hfirst.
  pose proof (Forall_inv_tail Hfields) as Hrest.
  simpl in Hfirst.
  split; [| split; [| split; [| split]]]; auto.
  - exists first. split; [reflexivity |]. split; [assumption |].
    destruct tl as [| x tl'].
    + simpl in Hjoin. rewrite Hjoin. apply prefix_self.
    + rewrite <- Hjoin. apply prefix_append.
  - intros last Hlast. destruct tl as [| x tl']; [discriminate |].
    simpl in Hlast. injection Hlast as <-. exact (Forall_inv Hrest).
  - rewrite has_space_count. destruct tl as [| x tl']; simpl in *.
    + split; [lia | reflexivity].
    + split; [discriminate | lia].
Qed.

(** X16.  The pre-population loses nothing exactly for a name with one
    space: then the name is [first_name], a space and [last_name].  With
    more spaces the name goes on after [last_name] with a space and a
    rest, which the form does not keep. *)
Theorem splitDisplayName_loss (name first last : string) :
  splitDisplayName name = FormValues.mk (Some first) (Some last) ->
  (count_spaces name = 1%nat ->
   name = (first ++ " " ++ last)%string)
  /\ ((1 < count_spaces name)%nat ->
      exists rest, name = (first ++ " " ++ last ++ " " ++ rest)%string)
  /\ (1 <= count_spaces name)%nat.
Proof.
  unfold splitDisplayName. intros Hvalues.
  destruct (split name) as [| f1 [| f2 tl]] eqn:Hs; try discriminate.
  simpl in Hvalues. injection Hvalues as -> ->.
  destruct (split_two_fields name first last tl Hs) as (_ & _ & Hshape).
  destruct tl as [| x tl']; destruct Hshape as [Hname Hcount].
  - split; [intros _; exact Hname |]. split; [lia | lia].
  - split; [lia |]. split; [| lia].
    intros _. exists (join (x :: tl')). exact Hname.
Qed.

End MoreEditForm.

(** X16 on a name of two fields and on a name of three. *)
Lemma splitDisplayName_loss_witness :
  "Ana Lima" = ("Ana" ++ " " ++ "Lima")%string
  /\ exists rest,
      "Ana Lima de Sousa" = ("Ana" ++ " " ++ "Lima" ++ " " ++ rest)%string.
Proof.
  split.
  - destruct (splitDisplayName_loss "Ana Lima" "Ana" "Lima" eq_refl)
      as (Hone & _).
    apply Hone. reflexivity.
  - destruct (splitDisplayName_loss "Ana Lima de Sousa" "Ana" "Lima" eq_refl)
      as (_ & Hmore & _).
    apply Hmore. simpl. lia.
Defined.

(* ================================================================= *)
(** ** Validity and submission of the edit form *)

Section EditFormSubmission.

Lemma append_empty_r (s : string) : (s ++ "")%string = s.
Proof.
  induction s as [| c s IH]; simpl; [reflexivity | now rewrite IH].
Qed.

Lemma required_iff (value : option string) :
  required value = true <-> exists s, value = Some s /\ s <> "".
Proof.
  destruct value as [[| c s] |]; simpl; split;
    try discriminate; try reflexivity.
  - intros (s & [= <-] & Hne). now elim Hne.
  - intros _. exists (String c s). split; [reflexivity | discriminate].
  - intros (s & Hs & _). discriminate.
Qed.

(** The split of a name that starts with two fields without a space, the
    second one ending the name or followed by a space. *)
Lemma split_first_two (first last tail : string) :
  has_space first = false ->
  has_space last = false ->
  tail = "" \/ (exists rest, tail = String " " rest) ->
  exists tl,
    split (first ++ String " " (last ++ tail))%string = first :: last :: tl.
Proof.
  intros Hfirst Hlast Htail. rewrite (split_field_space first _ Hfirst).
  destruct Htail as [-> | [rest ->]].
  - rewrite append_empty_r, (split_no_space last Hlast). now exists [].
  - rewrite (split_field_space last rest Hlast). now exists (split rest).
Qed.

(** X17.  The form is valid as pre-populated exactly when the name starts
    with a first field that is not empty, one space, and a second field
    that is not empty, the name ending there or going on with a space: a
    name without a space, with a space in front, or with two spaces after
    its first field opens an invalid form. *)
Theorem form_valid_on_open_iff (name : string) :
  isValid (splitDisplayName name) = true
  <-> exists first last tail,
      first <> "" /\ last <> ""
      /\ has_space first = false /\ has_space last = false
      /\ (tail = "" \/ exists rest, tail = String " " rest)
      /\ name = (first ++ String " " (last ++ tail))%string.
Proof.
  unfold isValid, splitDisplayName. simpl. rewrite andb_true_iff.
  rewrite !required_iff. split.
  - intros [(first & Hfirst & Hne1) (last & Hlast & Hne2)].
    destruct (split name) as [| f1 [| f2 tl]] eqn:Hs; try discriminate.
    simpl in Hfirst, Hlast. injection Hfirst as ->. injection Hlast as ->.
    destruct (split_two_fields name first last tl Hs)
      as (Hns1 & Hns2 & Hshape).
    destruct tl as [| x tl']; destruct Hshape as [Hname _].
    + exists first, last, EmptyString. rewrite append_empty_r.
      repeat split; auto.
    + exists first, last, (String " " (join (x :: tl'))).
      repeat split; eauto.
  - intros (first & last & tail & Hne1 & Hne2 & Hns1 & Hns2 & Htail & ->).
    destruct (split_first_two first last tail Hns1 Hns2 Htail) as [tl ->].
    simpl. split; eauto.
Qed.

(** X18.  A click on the submit button submits something exactly when a
    tenant is given, no submission is running and both names of the form
    are present and not empty; what it submits is these two names with
    the id of the tenant, never the fallback id 0 of a missing tenant. *)
Theorem button_onClick_iff
  (form : FormValues.t) (isSubmitting : bool) (tenant : option Tenant.t)
  (dto : TenantUpdateDto.t) :
  button_onClick form isSubmitting tenant = Some dto
  <-> exists t first last,
      tenant = Some t /\ isSubmitting = false
      /\ FormValues.first_name form = Some first /\ first <> ""
      /\ FormValues.last_name form = Some last /\ last <> ""
      /\ dto = TenantUpdateDto.mk (Some first) (Some last) (Tenant.id t).
Proof.
  unfold button_onClick, isDisabled, submitted_dto.
  destruct form as [fn ln]. simpl. split.
  - destruct (isValid _) eqn:Hvalid; simpl.
    + unfold isValid in Hvalid. simpl in Hvalid.
      apply andb_true_iff in Hvalid. rewrite !required_iff in Hvalid.
      destruct Hvalid as [(first & -> & Hne1) (last & -> & Hne2)].
      destruct isSubmitting; simpl; [discriminate |].
      destruct tenant as [t |]; [| discriminate].
      intros [= <-]. exists t, first, last. auto 10.
    + discriminate.
  - intros (t & first & last & -> & -> & Hfn & Hne1 & Hln & Hne2 & ->).
    simpl in Hfn, Hln. subst.
    assert (Hvalid : isValid (FormValues.mk (Some first) (Some last)) = true).
    { unfold isValid. simpl.
      destruct first; [now elim Hne1 |]. destruct last; [now elim Hne2 |].
      reflexivity. }
    rewrite Hvalid. reflexivity.
Qed.

(** X19.  Opening the form and submitting it as pre-populated: for a
    tenant whose name has no space nothing is submitted; for a tenant
    whose name starts with two fields that are not empty, these two are
    submitted as first and last name with the id of the tenant, and what
    the name has after them is not part of the submission. *)
Theorem open_then_submit (t : Tenant.t) (form : FormValues.t) :
  let values := EditTenantModal_effect (Some t) form in
  (has_space (Tenant.name t) = false ->
   button_onClick values false (Some t) = None)
  /\ (forall first last tail,
         first <> "" -> last <> "" ->
         has_space first = false -> has_space last = false ->
         tail = "" \/ (exists rest, tail = String " " rest) ->
         Tenant.name t = (first ++ String " " (last ++ tail))%string ->
         button_onClick values false (Some t)
         = Some (TenantUpdateDto.mk (Some first) (Some last) (Tenant.id t))).
Proof.
  cbv zeta. unfold EditTenantModal_effect, splitDisplayName. split.
  - intros Hns. rewrite (split_no_space _ Hns).
    unfold button_onClick, isDisabled, isValid. simpl.
    now rewrite andb_false_r.
  - intros first last tail Hne1 Hne2 Hns1 Hns2 Htail Hname.
    rewrite Hname.
    destruct (split_first_two first last tail Hns1 Hns2 Htail) as [tl ->].
    simpl nth_error.
    unfold button_onClick, isDisabled, isValid, submitted_dto. simpl.
    destruct first; [now elim Hne1 |]. destruct last; [now elim Hne2 |].
    reflexivity.
Qed.

End EditFormSubmission.

(** X19 on the sample tenants: Carol has one name, Jane Doe two. *)
Lemma open_then_submit_witness :
  button_onClick
    (EditTenantModal_effect (Some carol) (FormValues.mk (Some "") (Some "")))
    false (Some carol)
  = None
  /\ button_onClick
       (EditTenantModal_effect (Some jane) (FormValues.mk (Some "") (Some "")))
       false (Some jane)
     = Some (TenantUpdateDto.mk (Some "Jane") (Some "Doe") 1).
Proof.
  split.
  - destruct (open_then_submit carol (FormValues.mk (Some "") (Some "")))
      as [Hone _].
    apply Hone. reflexivity.
  - destruct (open_then_submit jane (FormValues.mk (Some "") (Some "")))
      as [_ Htwo].
    apply (Htwo "Jane" "Doe" EmptyString);
      try discriminate; try reflexivity.
    now left.
Defined.

(** X15 on the name of the sample tenant Jane Doe. *)
Lemma splitDisplayName_fields_witness :
  has_space "Doe" = false.
Proof.
  destruct (splitDisplayName_fields "Jane Doe") as (_ & Hlast & _).
  apply (Hlast "Doe"). reflexivity.
Defined.
